(** * Resume analyzer: the POST /api/analyze pipeline

    A shallow embedding of [backend/routes/analyze.js] (the route handler)
    and of the global error handler of [backend/server.js], with the
    JavaScript built-ins they call ([String.prototype.trim], [substring],
    [replace] with the two fence patterns, [JSON.parse], property access).

    JavaScript strings are sequences of UTF-16 code units; [length],
    [substring] and the regular expressions of the handler all count and
    compare code units, so a string is a [list N] here. *)

From Stdlib Require Import List NArith ZArith Bool Lia String Ascii.
Import ListNotations.

Set Warnings "-register-all".
Local Open Scope N_scope.

(* ================================================================== *)
(** ** JavaScript strings *)
(* ================================================================== *)

Module JsString.

Definition cu := N.
Definition t := list cu.

(** The code units of an ASCII literal of the source. *)
Definition lit (s : string) : t :=
  List.map N_of_ascii (list_ascii_of_string s).

Definition nl : t := [10].
Definition dq : t := [34].
Definition quoted (s : string) : t := dq ++ lit s ++ dq.

Fixpoint eqb (a b : t) : bool :=
  match a, b with
  | [], [] => true
  | x :: a', y :: b' => (x =? y) && eqb a' b'
  | _, _ => false
  end.

(** [s.length], a JavaScript number; always a non-negative integer. *)
Definition length (s : t) : Z := Z.of_nat (List.length s).

(** ECMAScript WhiteSpace and LineTerminator code points: what [trim]
    removes and what [\s] matches. *)
Definition is_space (c : cu) : bool :=
  ((9 <=? c) && (c <=? 13))          (* TAB LF VT FF CR *)
  || (c =? 32)                       (* SPACE *)
  || (c =? 160)                      (* NBSP *)
  || (c =? 5760)                     (* U+1680 *)
  || ((8192 <=? c) && (c <=? 8202))  (* U+2000 .. U+200A *)
  || (c =? 8232) || (c =? 8233)      (* LS, PS *)
  || (c =? 8239)                     (* U+202F *)
  || (c =? 8287)                     (* U+205F *)
  || (c =? 12288)                    (* U+3000 *)
  || (c =? 65279).                   (* U+FEFF *)

Fixpoint trimStart (s : t) : t :=
  match s with
  | c :: r => if is_space c then trimStart r else s
  | [] => []
  end.

Definition trimEnd (s : t) : t := rev (trimStart (rev s)).

(** [s.trim()] *)
Definition trim (s : t) : t := trimEnd (trimStart s).

(** [s.substring(start, end)]: both indices are clamped to
    [0 .. s.length] and swapped when [start > end]. *)
Definition substring (start stop : Z) (s : t) : t :=
  let len := length s in
  let fs := Z.min (Z.max start 0) len in
  let fe := Z.min (Z.max stop 0) len in
  let from := Z.min fs fe in
  let to := Z.max fs fe in
  firstn (Z.to_nat (to - from)) (skipn (Z.to_nat from) s).

(** *** Global replacement by the empty string

    Both patterns of the handler are a fixed run of characters followed
    by [\s*], with the flags [g] and [i].  Such a pattern matches at an
    index exactly when the fixed run does, and the match then extends
    over the longest run of white space (greedy star, nothing follows
    it).  [replace] scans from the left; after a match the search
    resumes right behind it.  A pattern is given by the predicates of
    its fixed run. *)

Definition pattern := list (cu -> bool).

Fixpoint starts_with (p : pattern) (s : t) : bool :=
  match p, s with
  | [], _ => true
  | f :: p', c :: s' => f c && starts_with p' s'
  | _ :: _, [] => false
  end.

(** [skip] counts the characters of the fixed run of the current match
    that are still to be dropped; [ws] says that the scan is inside the
    [\s*] tail of a match. *)
Fixpoint replace_scan (p : pattern) (skip : nat) (ws : bool) (s : t) : t :=
  match s with
  | [] => []
  | c :: r =>
      match skip with
      | S k => replace_scan p k true r
      | O =>
          if ws && is_space c then replace_scan p 0 true r
          else if starts_with p s
               then replace_scan p (Nat.pred (List.length p)) true r
               else c :: replace_scan p 0 false r
      end
  end.

(** [s.replace(/<p>\s*/g, '')] for a non-empty fixed run [p]. *)
Definition replaceAll (p : pattern) (s : t) : t := replace_scan p 0 false s.

End JsString.

(* ================================================================== *)
(** ** JavaScript values *)
(* ================================================================== *)

(** The values that reach the handler are JSON data: the request body
    produced by [express.json()], the completion object returned by the
    SDK, and the result of [JSON.parse]; [undefined] appears when a
    property is absent.  A number [VNum m e] is the decimal [m * 10^e] of
    its literal, kept exact; where the code looks at the number (its
    truthiness), the double that the decimal rounds to decides.  An object
    lists its own properties in insertion order. *)
Inductive value :=
| VUndefined
| VNull
| VBool (b : bool)
| VNum (m e : Z)
| VStr (s : JsString.t)
| VArr (items : list value)
| VObj (props : list (JsString.t * value)).

(** An [Error] object as the global handler reads it. *)
Record error := Error {
  statusCode : option Z;
  message : JsString.t;
  stack : JsString.t
}.

(** Normal completion or a thrown error. *)
Inductive completion (A : Type) :=
| Normal (a : A)
| Throw (e : error).
Arguments Normal {A} a.
Arguments Throw {A} e.

Module Js.
Import JsString.

(** The decimal [m * 10^e] is a zero once it is a double.  Rounding to
    nearest, ties to even, sends to zero exactly the decimals of magnitude
    at most [2^-1075], half the least positive double [2^-1074]; at the tie
    the even neighbour is zero. *)
Definition rounds_to_zero (m e : Z) : bool :=
  ((m =? 0)
   || if 0 <=? e then false
      else Z.abs m * 2 ^ 1075 <=? 10 ^ (- e))%Z.

(** [ToBoolean]: the falsy values are [undefined], [null], [false], the
    zeros and the empty string. *)
Definition truthy (v : value) : bool :=
  match v with
  | VUndefined | VNull => false
  | VBool b => b
  | VNum m e => negb (rounds_to_zero m e)
  | VStr s => match s with [] => false | _ :: _ => true end
  | VArr _ | VObj _ => true
  end.

Fixpoint lookup (k : t) (props : list (t * value)) : value :=
  match props with
  | [] => VUndefined
  | (k', v) :: rest => if eqb k k' then v else lookup k rest
  end.

(** A [TypeError] raised by the engine.  The message is the one of V8;
    of the stack only the first line is kept. *)
Definition TypeError (msg : t) : error :=
  {| statusCode := None; message := msg;
     stack := lit "TypeError: " ++ msg |}.

(** [v.name] for a property name that no built-in prototype defines
    ([resume], [jobDescription], [choices], [message], [content]). *)
Definition get_field (v : value) (name : string) : completion value :=
  match v with
  | VUndefined =>
      Throw (TypeError (lit "Cannot read properties of undefined (reading '"
                        ++ lit name ++ lit "')"))
  | VNull =>
      Throw (TypeError (lit "Cannot read properties of null (reading '"
                        ++ lit name ++ lit "')"))
  | VObj props => Normal (lookup (lit name) props)
  | _ => Normal VUndefined
  end.

(** [v[0]] *)
Definition get_first (v : value) : completion value :=
  match v with
  | VUndefined =>
      Throw (TypeError (lit "Cannot read properties of undefined (reading '0')"))
  | VNull =>
      Throw (TypeError (lit "Cannot read properties of null (reading '0')"))
  | VArr items => Normal (match items with [] => VUndefined | x :: _ => x end)
  | VStr s => Normal (match s with [] => VUndefined | c :: _ => VStr [c] end)
  | VObj props => Normal (lookup (lit "0") props)
  | _ => Normal VUndefined
  end.

(** [const { name } = src], where the source text of [src] is [what]. *)
Definition destructure (v : value) (name what : string) : completion value :=
  match v with
  | VUndefined | VNull =>
      Throw (TypeError (lit "Cannot destructure property '" ++ lit name
                        ++ lit "' of '" ++ lit what ++ lit "' as it is "
                        ++ (match v with VNull => lit "null"
                                       | _ => lit "undefined" end)
                        ++ lit "."))
  | VObj props => Normal (lookup (lit name) props)
  | _ => Normal VUndefined
  end.

(** [v.trim()], where the source text of [v] is [what]: only a string
    has a [trim] method; on any other truthy value the call throws. *)
Definition call_trim (v : value) (what : string) : completion t :=
  match v with
  | VStr s => Normal (trim s)
  | VUndefined =>
      Throw (TypeError (lit "Cannot read properties of undefined (reading 'trim')"))
  | VNull =>
      Throw (TypeError (lit "Cannot read properties of null (reading 'trim')"))
  | _ => Throw (TypeError (lit what ++ lit ".trim is not a function"))
  end.

End Js.

(* ================================================================== *)
(** ** JSON.parse *)
(* ================================================================== *)

Module Json.
Import JsString.

Inductive token :=
| TLBrace | TRBrace | TLBracket | TRBracket | TColon | TComma
| TString (s : t)
| TNumber (m e : Z)
| TTrue | TFalse | TNull.

(** *** Number literals *)

Definition is_digit (c : cu) : bool := (48 <=? c) && (c <=? 57).

Fixpoint span_digits (s : t) : t * t :=
  match s with
  | c :: r =>
      if is_digit c then let (d, rest) := span_digits r in (c :: d, rest)
      else ([], s)
  | [] => ([], [])
  end.

Definition digits_value (ds : t) : Z :=
  fold_left (fun acc c => (acc * 10 + Z.of_N (c - 48))%Z) ds 0%Z.

Definition nonempty {A} (l : list A) : bool :=
  match l with [] => false | _ => true end.

(** The JSON number grammar: an optional minus sign; an integer part
    that is a single zero or starts with a non-zero digit; optionally a
    dot and at least one digit; optionally e or E, a sign and at least
    one digit.  [text] is the whole literal. *)
Definition number_of_text (s : t) : option (Z * Z) :=
  let (neg, s1) := match s with
                   | 45 :: r => (true, r)
                   | _ => (false, s)
                   end in
  let (ip, s2) := span_digits s1 in
  let int_ok := match ip with
                | [] => false
                | [_] => true
                | c :: _ => negb (c =? 48)
                end in
  let '(fp, frac_ok, s3) :=
    match s2 with
    | 46 :: r => let (d, rest) := span_digits r in (d, nonempty d, rest)
    | _ => ([], true, s2)
    end in
  let '(ev, exp_ok) :=
    match s3 with
    | [] => (0%Z, true)
    | c :: r =>
        if (c =? 101) || (c =? 69) then
          let (eneg, r1) := match r with
                            | 45 :: r' => (true, r')
                            | 43 :: r' => (false, r')
                            | _ => (false, r)
                            end in
          let (d, rest) := span_digits r1 in
          ((if eneg then - digits_value d else digits_value d)%Z,
           nonempty d && negb (nonempty rest))
        else (0%Z, false)
    end in
  if int_ok && frac_ok && exp_ok then
    let m := digits_value (ip ++ fp) in
    Some ((if neg then - m else m)%Z, (ev - Z.of_nat (List.length fp))%Z)
  else None.

(** *** The lexer: one step per code unit *)

Inductive mode :=
| MDefault
| MString (acc : t)
| MEscape (acc : t)
| MUnicode (acc : t) (hex : list N)
| MNumber (text : t)
| MWord (text : t).

Definition is_json_ws (c : cu) : bool :=
  (c =? 9) || (c =? 10) || (c =? 13) || (c =? 32).

Definition is_number_char (c : cu) : bool :=
  is_digit c || (c =? 45) || (c =? 43) || (c =? 46) || (c =? 101) || (c =? 69).

Definition is_lower (c : cu) : bool := (97 <=? c) && (c <=? 122).

Definition hex_value (c : cu) : option N :=
  if is_digit c then Some (c - 48)
  else if (97 <=? c) && (c <=? 102) then Some (c - 87)
  else if (65 <=? c) && (c <=? 70) then Some (c - 55)
  else None.

Definition escape_value (c : cu) : option cu :=
  if c =? 34 then Some 34          (* quotation mark *)
  else if c =? 92 then Some 92     (* reverse solidus *)
  else if c =? 47 then Some 47     (* solidus *)
  else if c =? 98 then Some 8      (* b: backspace *)
  else if c =? 102 then Some 12    (* f: form feed *)
  else if c =? 110 then Some 10    (* n: line feed *)
  else if c =? 114 then Some 13    (* r: carriage return *)
  else if c =? 116 then Some 9     (* t: tab *)
  else None.

Definition word_token (w : t) : option token :=
  if eqb w (lit "true") then Some TTrue
  else if eqb w (lit "false") then Some TFalse
  else if eqb w (lit "null") then Some TNull
  else None.

Definition lex_default (toks : list token) (c : cu)
  : option (mode * list token) :=
  if is_json_ws c then Some (MDefault, toks)
  else if c =? 123 then Some (MDefault, toks ++ [TLBrace])
  else if c =? 125 then Some (MDefault, toks ++ [TRBrace])
  else if c =? 91 then Some (MDefault, toks ++ [TLBracket])
  else if c =? 93 then Some (MDefault, toks ++ [TRBracket])
  else if c =? 58 then Some (MDefault, toks ++ [TColon])
  else if c =? 44 then Some (MDefault, toks ++ [TComma])
  else if c =? 34 then Some (MString [], toks)
  else if is_digit c || (c =? 45) then Some (MNumber [c], toks)
  else if is_lower c then Some (MWord [c], toks)
  else None.

Definition lex_step (st : mode * list token) (c : cu)
  : option (mode * list token) :=
  let (m, toks) := st in
  match m with
  | MDefault => lex_default toks c
  | MString acc =>
      if c =? 34 then Some (MDefault, toks ++ [TString acc])
      else if c =? 92 then Some (MEscape acc, toks)
      else if c <? 32 then None
      else Some (MString (acc ++ [c]), toks)
  | MEscape acc =>
      if c =? 117 then Some (MUnicode acc [], toks)
      else match escape_value c with
           | Some x => Some (MString (acc ++ [x]), toks)
           | None => None
           end
  | MUnicode acc hex =>
      match hex_value c with
      | None => None
      | Some d =>
          match hex with
          | [a; b; c'] =>
              Some (MString (acc ++ [((a * 16 + b) * 16 + c') * 16 + d]), toks)
          | _ => Some (MUnicode acc (hex ++ [d]), toks)
          end
      end
  | MNumber text =>
      if is_number_char c then Some (MNumber (text ++ [c]), toks)
      else match number_of_text text with
           | Some (mant, ex) => lex_default (toks ++ [TNumber mant ex]) c
           | None => None
           end
  | MWord text =>
      if is_lower c then Some (MWord (text ++ [c]), toks)
      else match word_token text with
           | Some tk => lex_default (toks ++ [tk]) c
           | None => None
           end
  end.

Fixpoint lex_from (st : mode * list token) (s : t)
  : option (mode * list token) :=
  match s with
  | [] => Some st
  | c :: r => match lex_step st c with
              | Some st' => lex_from st' r
              | None => None
              end
  end.

Definition lex_finish (st : mode * list token) : option (list token) :=
  let (m, toks) := st in
  match m with
  | MDefault => Some toks
  | MNumber text =>
      match number_of_text text with
      | Some (mant, ex) => Some (toks ++ [TNumber mant ex])
      | None => None
      end
  | MWord text =>
      match word_token text with
      | Some tk => Some (toks ++ [tk])
      | None => None
      end
  | MString _ | MEscape _ | MUnicode _ _ => None
  end.

Definition lex (s : t) : option (list token) :=
  match lex_from (MDefault, []) s with
  | Some st => lex_finish st
  | None => None
  end.

(** *** The grammar: one step per token, with the stack of the
    enclosing arrays and objects that still wait for a value *)

Inductive frame :=
| FArr (acc : list value)
| FObj (acc : list (t * value)) (key : t).

Inductive pstate :=
| SValue (stk : list frame)
| SArrFirst (stk : list frame)
| SArrNext (acc : list value) (stk : list frame)
| SObjFirst (stk : list frame)
| SObjKey (acc : list (t * value)) (stk : list frame)
| SObjColon (acc : list (t * value)) (key : t) (stk : list frame)
| SObjNext (acc : list (t * value)) (stk : list frame)
| SEnd (v : value).

(** A later member with the same key replaces the value of the earlier
    one. *)
Fixpoint obj_put (k : t) (v : value) (props : list (t * value))
  : list (t * value) :=
  match props with
  | [] => [(k, v)]
  | (k', v') :: rest =>
      if eqb k k' then (k', v) :: rest else (k', v') :: obj_put k v rest
  end.

Definition reduce (v : value) (stk : list frame) : pstate :=
  match stk with
  | [] => SEnd v
  | FArr acc :: stk' => SArrNext (acc ++ [v]) stk'
  | FObj acc key :: stk' => SObjNext (obj_put key v acc) stk'
  end.

Definition begin_value (tk : token) (stk : list frame) : option pstate :=
  match tk with
  | TString s => Some (reduce (VStr s) stk)
  | TNumber m e => Some (reduce (VNum m e) stk)
  | TTrue => Some (reduce (VBool true) stk)
  | TFalse => Some (reduce (VBool false) stk)
  | TNull => Some (reduce VNull stk)
  | TLBracket => Some (SArrFirst stk)
  | TLBrace => Some (SObjFirst stk)
  | _ => None
  end.

Definition parse_step (st : pstate) (tk : token) : option pstate :=
  match st, tk with
  | SValue stk, _ => begin_value tk stk
  | SArrFirst stk, TRBracket => Some (reduce (VArr []) stk)
  | SArrFirst stk, _ => begin_value tk (FArr [] :: stk)
  | SArrNext acc stk, TComma => Some (SValue (FArr acc :: stk))
  | SArrNext acc stk, TRBracket => Some (reduce (VArr acc) stk)
  | SObjFirst stk, TRBrace => Some (reduce (VObj []) stk)
  | SObjFirst stk, TString k => Some (SObjColon [] k stk)
  | SObjKey acc stk, TString k => Some (SObjColon acc k stk)
  | SObjColon acc k stk, TColon => Some (SValue (FObj acc k :: stk))
  | SObjNext acc stk, TComma => Some (SObjKey acc stk)
  | SObjNext acc stk, TRBrace => Some (reduce (VObj acc) stk)
  | _, _ => None
  end.

Fixpoint parse_from (st : pstate) (toks : list token) : option value :=
  match toks with
  | [] => match st with SEnd v => Some v | _ => None end
  | tk :: rest => match parse_step st tk with
                  | Some st' => parse_from st' rest
                  | None => None
                  end
  end.

(** [JSON.parse(text)] without reviver: [Some v] for the value, [None]
    where JavaScript throws a [SyntaxError]. *)
Definition parse (text : t) : option value :=
  match lex text with
  | Some toks => parse_from (SValue []) toks
  | None => None
  end.

End Json.

(* ================================================================== *)
(** ** backend/routes/analyze.js and the error handler of server.js *)
(* ================================================================== *)

Record response := Response { status : Z; body : value }.

(** What the route handler leaves behind: a response sent with
    [res.status(..).json(..)], or an error handed to [next]. *)
Inductive outcome :=
| Sent (r : response)
| Next (e : error).

(** The argument of [groq.chat.completions.create]. *)
Record chat_request := ChatRequest {
  model : JsString.t;
  temperature : value;
  max_tokens : Z;
  messages : list (JsString.t * JsString.t)   (* role, content *)
}.

(** A run of the handler either ends without touching the remote model,
    or awaits one completion and continues with its result (the resolved
    completion object, or the error the promise rejects with). *)
Inductive run :=
| Finished (o : outcome)
| Await (req : chat_request) (k : completion value -> outcome).

Record environment := Env { NODE_ENV : option JsString.t }.

Module Analyze.
Import JsString Js.

Definition bind {A B} (c : completion A) (f : A -> completion B)
  : completion B :=
  match c with
  | Normal a => f a
  | Throw e => Throw e
  end.

Notation "x <- c ;; k" := (bind c (fun x => k))
  (at level 61, c at next level, right associativity).

Definition error_body (msg : t) : value := VObj [(lit "error", VStr msg)].

Definition success_body (data : value) : value :=
  VObj [(lit "success", VBool true); (lit "data", data)].

Definition resume_too_short : response :=
  Response 400 (error_body (lit "Resume must be at least 50 characters.")).

Definition jd_too_short : response :=
  Response 400
    (error_body (lit "Job description must be at least 30 characters.")).

Definition unexpected_format : response :=
  Response 500
    (error_body (lit "AI returned unexpected format. Please try again.")).

(** [!v || v.trim().length < min], for the variable named [what] *)
Definition too_short (v : value) (what : string) (min : Z)
  : completion bool :=
  if negb (truthy v) then Normal true
  else trimmed <- call_trim v what ;; Normal (length trimmed <? min)%Z.

(** *** The prompt *)

Fixpoint lines (l : list t) : t :=
  match l with
  | [] => []
  | [x] => x
  | x :: rest => x ++ nl ++ lines rest
  end.

Definition system_content : t :=
  lines
    [ lit "You are an expert ATS and career coach AI.";
      lit "Return ONLY valid JSON, no markdown, no code fences, no extra text.";
      lit "JSON structure:";
      lit "{";
      lit "  " ++ quoted "matchScore" ++ lit ": <integer 0-100>,";
      lit "  " ++ quoted "performanceRating" ++ lit ": <"
        ++ quoted "Excellent" ++ lit "|" ++ quoted "Good" ++ lit "|"
        ++ quoted "Average" ++ lit "|" ++ quoted "Below Average" ++ lit "|"
        ++ quoted "Poor" ++ lit ">,";
      lit "  " ++ quoted "strengths" ++ lit ": [<3-5 strings>],";
      lit "  " ++ quoted "weaknesses" ++ lit ": [<3-5 strings>],";
      lit "  " ++ quoted "improvementSuggestions" ++ lit ": [<3-5 strings>],";
      lit "  " ++ quoted "keywordsFound"
        ++ lit ": [<keywords from JD found in resume>],";
      lit "  " ++ quoted "keywordsMissing"
        ++ lit ": [<keywords from JD missing in resume>],";
      lit "  " ++ quoted "summary" ++ lit ": "
        ++ quoted "<2-3 sentence assessment>";
      lit "}" ].

Definition user_content (safeResume safeJD : t) : t :=
  lines
    [ lit "Analyze this resume against the job description.";
      [];
      lit "=== RESUME ===";
      safeResume;
      [];
      lit "=== JOB DESCRIPTION ===";
      safeJD;
      [];
      lit "Return ONLY the JSON object." ].

Definition create_request (safeResume safeJD : t) : chat_request :=
  {| model := lit "llama-3.3-70b-versatile";
     temperature := VNum 2 (-1);
     max_tokens := 1000;
     messages := [ (lit "system", system_content);
                   (lit "user", user_content safeResume safeJD) ] |}.

(** *** The response of the model *)

(** [completion.choices[0].message.content] *)
Definition raw_content (c : value) : completion value :=
  choices <- get_field c "choices" ;;
  first <- get_first choices ;;
  msg <- get_field first "message" ;;
  get_field msg "content".

Definition backtick (c : cu) : bool := c =? 96.
Definition letter (upper lower : cu) (c : cu) : bool :=
  (c =? upper) || (c =? lower).

(** The fixed runs of the two patterns; the [i] flag makes [json]
    match in either case. *)
Definition fence_json : pattern :=
  [ backtick; backtick; backtick;
    letter 74 106; letter 83 115; letter 79 111; letter 78 110 ].
Definition fence : pattern := [ backtick; backtick; backtick ].

(** The two [replace] calls, tagged pattern first. *)
Definition strip_fences (rawContent : t) : t :=
  replaceAll fence (replaceAll fence_json rawContent).

Definition cleaned (rawContent : t) : t := trim (strip_fences rawContent).

(** The inner [try]: a [rawContent] that is not a string has no
    [replace] method, the call throws and the inner [catch] answers;
    so does a [SyntaxError] of [JSON.parse]. *)
Definition parse_response (rawContent : value) : response :=
  match rawContent with
  | VStr raw =>
      match Json.parse (cleaned raw) with
      | Some analysisResult => Response 200 (success_body analysisResult)
      | None => unexpected_format
      end
  | _ => unexpected_format
  end.

Definition after_completion (c : completion value) : outcome :=
  match c with
  | Throw e => Next e
  | Normal completion =>
      match raw_content completion with
      | Throw e => Next e
      | Normal rawContent => Sent (parse_response rawContent)
      end
  end.

(** *** The handler *)

(** Every [Throw] of the body is caught by the outer [catch], which
    calls [next(error)]. *)
Definition handler_body (req_body : value) : completion run :=
  resume <- destructure req_body "resume" "req.body" ;;
  jobDescription <- destructure req_body "jobDescription" "req.body" ;;
  short_resume <- too_short resume "resume" 50 ;;
  if (short_resume : bool) then Normal (Finished (Sent resume_too_short))
  else
    short_jd <- too_short jobDescription "jobDescription" 30 ;;
    if (short_jd : bool) then Normal (Finished (Sent jd_too_short))
    else
      trimmedResume <- call_trim resume "resume" ;;
      trimmedJD <- call_trim jobDescription "jobDescription" ;;
      let safeResume := substring 0 6000 trimmedResume in
      let safeJD := substring 0 3000 trimmedJD in
      Normal (Await (create_request safeResume safeJD) after_completion).

Definition handler (req_body : value) : run :=
  match handler_body req_body with
  | Normal r => r
  | Throw e => Finished (Next e)
  end.

(** The global error handler of server.js. *)
Definition error_handler (env : environment) (err : error) : response :=
  {| status := match statusCode err with
               | Some code => if (code =? 0)%Z then 500%Z else code
               | None => 500%Z
               end;
     body := VObj
       ((lit "error",
         VStr (match message err with
               | [] => lit "Internal Server Error"
               | m => m
               end))
        :: match NODE_ENV env with
           | Some mode =>
               if eqb mode (lit "development")
               then [(lit "stack", VStr (stack err))]
               else []
           | None => []
           end) |}.

Definition settle (env : environment) (o : outcome) : response :=
  match o with
  | Sent r => r
  | Next e => error_handler env e
  end.

(** The requests sent to the remote model during a run. *)
Definition remote_calls (r : run) : list chat_request :=
  match r with
  | Finished _ => []
  | Await req _ => [req]
  end.

(** POST /api/analyze, end to end: the body parsed by [express.json()],
    the remote model as a function of the request it receives. *)
Definition endpoint (env : environment) (req_body : value)
    (remote : chat_request -> completion value) : response :=
  match handler req_body with
  | Finished o => settle env o
  | Await req k => settle env (k (remote req))
  end.

End Analyze.

(* ================================================================== *)
(** ** The AnalysisResult contract of the specification *)
(* ================================================================== *)

Module Contract.
Import JsString Js.

Definition required_keys : list string :=
  [ "matchScore"; "performanceRating"; "strengths"; "weaknesses";
    "improvementSuggestions"; "keywordsFound"; "keywordsMissing";
    "summary" ]%string.

Definition array_keys : list string :=
  [ "strengths"; "weaknesses"; "improvementSuggestions";
    "keywordsFound"; "keywordsMissing" ]%string.

Definition ratings : list string :=
  [ "Excellent"; "Good"; "Average"; "Below Average"; "Poor" ]%string.

Definition defined (v : value) : bool :=
  match v with VUndefined => false | _ => true end.

(** Follows the specification: required keys present. *)
Definition has_required_keys (v : value) : bool :=
  match v with
  | VObj props =>
      forallb (fun k => defined (lookup (lit k) props)) required_keys
  | _ => false
  end.

(** The decimal [m * 10^e] is an integer between 0 and 100. *)
Definition integer_0_100 (m e : Z) : bool :=
  ((m =? 0)
   || if 0 <=? e
      then (e <=? 2) && (0 <? m) && (m * 10 ^ e <=? 100)
      else (m mod 10 ^ (- e) =? 0) && (0 <? m) && (m / 10 ^ (- e) <=? 100))%Z.

Definition is_string (v : value) : bool :=
  match v with VStr _ => true | _ => false end.

(** Follows the specification: [matchScore] is an integer in [0,100],
    [performanceRating] is one of the five enumerated values, the array
    fields are sequences of strings. *)
Definition conforms (v : value) : bool :=
  has_required_keys v &&
  match v with
  | VObj props =>
      match lookup (lit "matchScore") props with
      | VNum m e => integer_0_100 m e
      | _ => false
      end
      && match lookup (lit "performanceRating") props with
         | VStr r => existsb (fun x => eqb r (lit x)) ratings
         | _ => false
         end
      && forallb (fun k => match lookup (lit k) props with
                           | VArr items => forallb is_string items
                           | _ => false
                           end) array_keys
  | _ => false
  end.

End Contract.

(* ================================================================== *)
(** ** Vocabulary of the statements *)
(* ================================================================== *)

Module Shape.
Import JsString Js Analyze.

Definition all_space (s : t) : bool := forallb is_space s.

(** No match of the fixed run [p] starts anywhere in [s]. *)
Fixpoint free (p : pattern) (s : t) : bool :=
  match s with
  | [] => true
  | _ :: r => negb (starts_with p s) && free p r
  end.

(** No predicate of the fixed run accepts [c]. *)
Definition inert (p : pattern) (c : cu) : bool :=
  forallb (fun f => negb (f c)) p.

Definition fence_text : t := lit "```".

(** A text that is empty or ends in white space. *)
Definition ends_in_space (y : t) : Prop :=
  y = [] \/ exists y' c, y = y' ++ [c] /\ is_space c = true.

(** The tag behind an opening fence: none, or [json] in any case. *)
Definition fence_tag (tag : t) : bool :=
  match tag with
  | [] => true
  | [a; b; c; d] =>
      letter 74 106 a && letter 83 115 b && letter 79 111 c && letter 78 110 d
  | _ => false
  end.

(** The tagged pattern without its last character. *)
Definition fence_json_fixed : pattern :=
  [ backtick; backtick; backtick; letter 74 106; letter 83 115; letter 79 111 ].

(** The text [m] stands right behind three backticks that open a fence
    without a tag: no tagged fence starts on one of the three. *)
Definition untagged_opening (m : t) : bool :=
  negb (starts_with fence_json (96 :: 96 :: 96 :: m))
  && negb (starts_with fence_json (96 :: 96 :: m))
  && negb (starts_with fence_json (96 :: m)).

(** A text [inner] between an opening fence (with its tag and the white
    space [w1] behind it) and a closing fence (with the white space [w2]
    before and [w3] behind it). *)
Definition wrapped (tag w1 inner w2 w3 : t) : t :=
  fence_text ++ tag ++ w1 ++ inner ++ w2 ++ fence_text ++ w3.

(** A string that neither begins nor ends with a fence marker, white
    space aside. *)
Definition no_surrounding_fence (s : t) : bool :=
  negb (starts_with fence (trim s)) && negb (starts_with fence (rev (trim s))).

Definition has_key (k : string) (v : value) : bool :=
  match v with
  | VObj props => existsb (fun kv => eqb (lit k) (fst kv)) props
  | _ => false
  end.

Definition field (k : string) (v : value) : value :=
  match v with
  | VObj props => lookup (lit k) props
  | _ => VUndefined
  end.

(** The two variants of the response envelope. *)
Definition success_variant (b : value) : bool :=
  match field "success" b with VBool true => true | _ => false end
  && has_key "data" b && Contract.defined (field "data" b)
  && negb (has_key "error" b).

Definition failure_variant (b : value) : bool :=
  match field "error" b with VStr _ => true | _ => false end
  && negb (has_key "success" b) && negb (has_key "data" b).

(** The two fields the handler takes from the request body. *)
Definition resume_field (req_body : value) : completion value :=
  destructure req_body "resume" "req.body".

Definition jobDescription_field (req_body : value) : completion value :=
  destructure req_body "jobDescription" "req.body".

(** The remote model answers every call of the run with [c]. *)
Definition answers (remote : chat_request -> completion value)
    (r : run) (c : completion value) : Prop :=
  forall req, In req (remote_calls r) -> remote req = c.

(** Parser states whose finished value, if any, is not [undefined]. *)
Definition settled (st : Json.pstate) : Prop :=
  match st with
  | Json.SEnd v => Contract.defined v = true
  | _ => True
  end.

End Shape.

(* ================================================================== *)
(** ** Sample requests and model outputs *)
(* ================================================================== *)

Module Samples.
Import JsString Js Analyze.

Definition request (resume jobDescription : value) : value :=
  VObj [(lit "resume", resume); (lit "jobDescription", jobDescription)].

(** A completion object whose first choice carries [content]. *)
Definition reply (content : t) : value :=
  VObj [(lit "choices",
         VArr [VObj [(lit "message", VObj [(lit "content", VStr content)])]])].

Definition resume60 : t :=
  lit "Senior engineer with ten years of Rocq and OCaml experience.".

Definition jd42 : t := lit "We look for a Rocq proof engineer, remote.".

Definition resume10 : t := lit "Engineer..".

Definition good_request : value := request (VStr resume60) (VStr jd42).

Definition member (k : string) (v : t) : t := quoted k ++ lit ":" ++ v.

Fixpoint commas (l : list t) : t :=
  match l with
  | [] => []
  | [x] => x
  | x :: rest => x ++ lit "," ++ commas rest
  end.

Definition object (members : list t) : t :=
  lit "{" ++ commas members ++ lit "}".

(** The payload of scenario A of the specification. *)
Definition payload_A : t :=
  object
    [ member "matchScore" (lit "85");
      member "performanceRating" (quoted "Good");
      member "strengths" (lit "[" ++ commas [quoted "a"; quoted "b"; quoted "c"] ++ lit "]");
      member "weaknesses" (lit "[" ++ commas [quoted "d"; quoted "e"; quoted "f"] ++ lit "]");
      member "improvementSuggestions"
        (lit "[" ++ commas [quoted "g"; quoted "h"; quoted "i"] ++ lit "]");
      member "keywordsFound" (lit "[" ++ quoted "x" ++ lit "]");
      member "keywordsMissing" (lit "[" ++ quoted "y" ++ lit "]");
      member "summary" (quoted "ok ok ok") ].

Definition value_A : value :=
  VObj [ (lit "matchScore", VNum 85 0);
         (lit "performanceRating", VStr (lit "Good"));
         (lit "strengths", VArr [VStr (lit "a"); VStr (lit "b"); VStr (lit "c")]);
         (lit "weaknesses", VArr [VStr (lit "d"); VStr (lit "e"); VStr (lit "f")]);
         (lit "improvementSuggestions",
          VArr [VStr (lit "g"); VStr (lit "h"); VStr (lit "i")]);
         (lit "keywordsFound", VArr [VStr (lit "x")]);
         (lit "keywordsMissing", VArr [VStr (lit "y")]);
         (lit "summary", VStr (lit "ok ok ok")) ].

Definition fenced_A : t :=
  lit "```json" ++ nl ++ payload_A ++ nl ++ lit "```".

(** All eight keys, but a score of 150, an unknown rating and a number
    among the strengths. *)
Definition payload_off_contract : t :=
  object
    [ member "matchScore" (lit "150");
      member "performanceRating" (quoted "Superb");
      member "strengths" (lit "[1]");
      member "weaknesses" (lit "[]");
      member "improvementSuggestions" (lit "[]");
      member "keywordsFound" (lit "[]");
      member "keywordsMissing" (lit "[]");
      member "summary" (quoted "x") ].

Definition value_off_contract : value :=
  VObj [ (lit "matchScore", VNum 150 0);
         (lit "performanceRating", VStr (lit "Superb"));
         (lit "strengths", VArr [VNum 1 0]);
         (lit "weaknesses", VArr []);
         (lit "improvementSuggestions", VArr []);
         (lit "keywordsFound", VArr []);
         (lit "keywordsMissing", VArr []);
         (lit "summary", VStr (lit "x")) ].

(** A JSON text with a triple backtick inside a string and no fence
    around it. *)
Definition payload_backticks : t :=
  object [ member "summary" (dq ++ lit "a```b" ++ dq) ].

Definition prose : t := lit "Sure! The candidate looks like a good match.".

End Samples.

(* ================================================================== *)
(** ** frontend: services/api.js, App.jsx, components/ResultsPanel.jsx *)
(* ================================================================== *)

(** How an awaited call settles in the browser: with a value, or rejected
    with an error object (axios rejects with error objects, and so does a
    [TypeError] of the engine), given by its own properties. *)
Inductive promise :=
| Resolved (v : value)
| Rejected (err : list (JsString.t * value)).

(** The state of the [App] component. *)
Record ui_state := UiState {
  ui_resume : JsString.t;
  ui_jobDescription : JsString.t;
  ui_loading : bool;
  ui_result : value;
  ui_error : value
}.

(** What [getRatingStyle] hands back: one of the entries of its table, or
    a member that the table inherits from [Object.prototype]. *)
Inductive rating_style :=
| Style (bg color border : string)
| Inherited (name : JsString.t).

Module Frontend.
Import JsString Js.

(** [a || b] *)
Definition or_else (a b : value) : value := if truthy a then a else b.

(** [v?.name], and [v.name] on a value that is not [undefined] or [null],
    for a name that no built-in prototype defines. *)
Definition opt_field (v : value) (name : string) : value :=
  match v with
  | VObj props => lookup (lit name) props
  | _ => VUndefined
  end.

(** The message the response interceptor of api.js picks for a rejected
    request. *)
Definition normalized_message (error : list (t * value)) : value :=
  let response := lookup (lit "response") error in
  or_else
    (or_else
       (or_else (opt_field (opt_field response "data") "error")
                (opt_field (opt_field response "data") "message"))
       (lookup (lit "message") error))
    (VStr (lit "An unexpected error occurred")).

(** The rejection branch of the response interceptor: the error is
    rejected again with [userMessage] set. *)
Definition on_rejected (error : list (t * value)) : list (t * value) :=
  Json.obj_put (lit "userMessage") (normalized_message error) error.

(** The error object a thrown [TypeError] is caught as. *)
Definition thrown (e : error) : list (t * value) :=
  [(lit "message", VStr (message e)); (lit "stack", VStr (stack e))].

(** [apiClient.post]: the transport [post], then the response
    interceptors (the identity on a response). *)
Definition apiClient_post (post : value -> promise) (data : value) : promise :=
  match post data with
  | Resolved response => Resolved response
  | Rejected err => Rejected (on_rejected err)
  end.

(** The body [{ resume, jobDescription }] of the POST. *)
Definition request_body (resume jobDescription : t) : value :=
  VObj [(lit "resume", VStr resume);
        (lit "jobDescription", VStr jobDescription)].

(** [analyzeResume(resume, jobDescription)] *)
Definition analyzeResume (post : value -> promise) (resume jobDescription : t)
  : promise :=
  match apiClient_post post (request_body resume jobDescription) with
  | Rejected err => Rejected err
  | Resolved response =>
      match get_field response "data" with
      | Normal data => Resolved data
      | Throw e => Rejected (thrown e)
      end
  end.

(** [!s.trim() || s.trim().length < min] *)
Definition client_too_short (s : t) (min : Z) : bool :=
  negb (truthy (VStr (trim s))) || (length (trim s) <? min)%Z.

Definition setError (e : value) (st : ui_state) : ui_state :=
  UiState (ui_resume st) (ui_jobDescription st) (ui_loading st)
          (ui_result st) e.

Definition setResult (r : value) (st : ui_state) : ui_state :=
  UiState (ui_resume st) (ui_jobDescription st) (ui_loading st)
          r (ui_error st).

Definition setLoading (l : bool) (st : ui_state) : ui_state :=
  UiState (ui_resume st) (ui_jobDescription st) l
          (ui_result st) (ui_error st).

(** The [try]/[catch] of [handleAnalyze], on the state after the three
    setters in front of it. *)
Definition request_and_show (post : value -> promise) (st : ui_state)
  : ui_state :=
  match analyzeResume post (trim (ui_resume st))
                      (trim (ui_jobDescription st)) with
  | Resolved data =>
      match get_field data "data" with
      | Normal d => setResult d st
      | Throw e =>
          setError (or_else (lookup (lit "userMessage") (thrown e))
                            (VStr (lit "Failed to analyze. Please try again.")))
                   st
      end
  | Rejected err =>
      setError (or_else (lookup (lit "userMessage") err)
                        (VStr (lit "Failed to analyze. Please try again.")))
               st
  end.

(** [handleAnalyze]: the state once the handler has run to its end. *)
Definition handleAnalyze (post : value -> promise) (st : ui_state) : ui_state :=
  if client_too_short (ui_resume st) 50 then
    setError (VStr (lit "Please paste a resume with at least 50 characters."))
             st
  else if client_too_short (ui_jobDescription st) 30 then
    setError
      (VStr (lit "Please paste a job description with at least 30 characters."))
      st
  else
    setLoading false
      (request_and_show post
         (setResult VNull (setError VNull (setLoading true st)))).

(** The request bodies [handleAnalyze] posts. *)
Definition posted (st : ui_state) : list value :=
  if client_too_short (ui_resume st) 50 then []
  else if client_too_short (ui_jobDescription st) 30 then []
  else [request_body (trim (ui_resume st)) (trim (ui_jobDescription st))].

(** *** ResultsPanel.jsx *)

Definition rating_table : list (string * rating_style) :=
  [ ("Excellent",
     Style "rgba(0,214,143,0.1)" "#00d68f" "rgba(0,214,143,0.25)");
    ("Good",
     Style "rgba(108,99,255,0.1)" "#6c63ff" "rgba(108,99,255,0.25)");
    ("Average",
     Style "rgba(255,209,102,0.1)" "#ffd166" "rgba(255,209,102,0.25)");
    ("Below Average",
     Style "rgba(255,77,109,0.08)" "#ff8fa3" "rgba(255,77,109,0.2)");
    ("Poor",
     Style "rgba(255,77,109,0.12)" "#ff4d6d" "rgba(255,77,109,0.3)")
  ]%string.

(** The properties every object literal inherits; all of them are
    functions or objects, hence truthy. *)
Definition object_prototype_names : list string :=
  [ "constructor"; "__proto__"; "hasOwnProperty"; "isPrototypeOf";
    "propertyIsEnumerable"; "toLocaleString"; "toString"; "valueOf";
    "__defineGetter__"; "__defineSetter__"; "__lookupGetter__";
    "__lookupSetter__" ]%string.

Fixpoint table_lookup (key : t) (table : list (string * rating_style))
  : option rating_style :=
  match table with
  | [] => None
  | (k, v) :: rest => if eqb key (lit k) then Some v else table_lookup key rest
  end.

(** [map[key]] for a property key: an own entry, an inherited member, or
    [undefined] ([None]). *)
Definition map_get (key : t) : option rating_style :=
  match table_lookup key rating_table with
  | Some style => Some style
  | None =>
      if existsb (fun n => eqb key (lit n)) object_prototype_names
      then Some (Inherited key)
      else None
  end.

(** [map[rating] || map['Average']], for the property key [key] that the
    rating converts to (a string rating is its own key).  Entries and
    inherited members are objects or functions, so only [undefined] is
    falsy here. *)
Definition getRatingStyle (key : t) : option rating_style :=
  match map_get key with
  | Some style => Some style
  | None => map_get (lit "Average")
  end.

End Frontend.

(* ================================================================== *)
(** ** Facts about trim and substring *)
(* ================================================================== *)

Module StringFacts.
Import JsString Shape.

Lemma trimStart_all_space (w s : t) :
  all_space w = true -> trimStart (w ++ s) = trimStart s.
Proof.
  induction w as [|c w IH]; simpl; intros H; [reflexivity|].
  apply andb_true_iff in H as [Hc Hw]. rewrite Hc. auto.
Qed.

Lemma trimStart_nil_all_space (s : t) :
  trimStart s = [] -> all_space s = true.
Proof.
  induction s as [|c s IH]; simpl; [reflexivity|].
  destruct (is_space c); [auto | discriminate].
Qed.

Lemma trimStart_head (s : t) :
  match trimStart s with
  | [] => True
  | c :: _ => is_space c = false
  end.
Proof.
  induction s as [|c s IH]; simpl; [exact I|].
  destruct (is_space c) eqn:E; [exact IH | exact E].
Qed.

Lemma trimStart_fixed (s : t) :
  match s with [] => True | c :: _ => is_space c = false end ->
  trimStart s = s.
Proof.
  destruct s as [|c s]; simpl; [reflexivity|]. intros ->. reflexivity.
Qed.

Lemma trimStart_idem (s : t) : trimStart (trimStart s) = trimStart s.
Proof. apply trimStart_fixed, trimStart_head. Qed.

Lemma trimStart_suffix (s : t) : exists pre, s = pre ++ trimStart s.
Proof.
  induction s as [|c s [pre IH]]; simpl.
  - exists []. reflexivity.
  - destruct (is_space c).
    + exists (c :: pre). simpl. f_equal. exact IH.
    + exists []. reflexivity.
Qed.

(** White space stays in front of whatever follows a string that is not
    all white space. *)
Lemma trimStart_app (a b : t) :
  trimStart (a ++ b) =
  match trimStart a with
  | [] => trimStart b
  | _ => trimStart a ++ b
  end.
Proof.
  induction a as [|c a IH]; simpl; [reflexivity|].
  destruct (is_space c); [exact IH | reflexivity].
Qed.

Lemma trimEnd_all_space (s w : t) :
  all_space w = true -> trimEnd (s ++ w) = trimEnd s.
Proof.
  intros H. unfold trimEnd. rewrite rev_app_distr.
  rewrite trimStart_all_space; [reflexivity|].
  unfold all_space in *. rewrite forallb_forall in *.
  intros x Hx. apply H. apply in_rev. exact Hx.
Qed.

Lemma trim_trimStart (s : t) : trim (trimStart s) = trim s.
Proof. unfold trim. rewrite trimStart_idem. reflexivity. Qed.

Lemma trim_app_space (s w : t) :
  all_space w = true -> trim (s ++ w) = trim s.
Proof.
  intros H. unfold trim. rewrite trimStart_app.
  destruct (trimStart s) as [|c r] eqn:E.
  - rewrite <- (app_nil_r w), trimStart_all_space by exact H. reflexivity.
  - apply trimEnd_all_space. exact H.
Qed.

Lemma trimStart_length (s : t) :
  (List.length (trimStart s) <= List.length s)%nat.
Proof.
  induction s as [|c s IH]; simpl; [lia|].
  destruct (is_space c); simpl; lia.
Qed.

Lemma trim_length (s : t) : (length (trim s) <= length s)%Z.
Proof.
  unfold length, trim, trimEnd. rewrite length_rev.
  pose proof (trimStart_length (rev (trimStart s))) as H1.
  rewrite length_rev in H1.
  pose proof (trimStart_length s). lia.
Qed.

(** [substring(0, n)] is the prefix of at most [n] code units. *)
Lemma substring_prefix (n : Z) (s : t) :
  (0 <= n)%Z -> substring 0 n s = firstn (Z.to_nat n) s.
Proof.
  intros Hn. unfold substring, length.
  set (len := Z.of_nat (List.length s)).
  assert (Hlen : (0 <= len)%Z) by (subst len; lia).
  change (Z.max 0 0) with 0%Z.
  replace (Z.min 0 len) with 0%Z by lia.
  replace (Z.max n 0) with n by lia.
  replace (Z.min 0 (Z.min n len)) with 0%Z by lia.
  replace (Z.max 0 (Z.min n len)) with (Z.min n len) by lia.
  simpl skipn. rewrite Z.sub_0_r.
  destruct (Z.le_ge_cases n len) as [H|H].
  - rewrite Z.min_l by lia. reflexivity.
  - rewrite Z.min_r by lia. subst len. rewrite Nat2Z.id.
    rewrite firstn_all. symmetry. apply firstn_all2. lia.
Qed.

Lemma substring_length (n : Z) (s : t) :
  (0 <= n)%Z -> length (substring 0 n s) = Z.min n (length s).
Proof.
  intros Hn. rewrite substring_prefix by exact Hn.
  unfold length. rewrite length_firstn. lia.
Qed.

Lemma substring_short (n : Z) (s : t) :
  (length s <= n)%Z -> substring 0 n s = s.
Proof.
  intros H. unfold length in H. rewrite substring_prefix by lia.
  apply firstn_all2. lia.
Qed.

Lemma substring_is_prefix (n : Z) (s : t) :
  (0 <= n)%Z -> exists rest, s = substring 0 n s ++ rest.
Proof.
  intros Hn. rewrite substring_prefix by exact Hn.
  exists (skipn (Z.to_nat n) s). symmetry. apply firstn_skipn.
Qed.

End StringFacts.

(* ================================================================== *)
(** ** Facts about the global replacement *)
(* ================================================================== *)

Module ReplaceFacts.
Import JsString Shape StringFacts.

Lemma starts_with_inert (p : pattern) (a : t) (c : cu) (b : t) :
  inert p c = true -> starts_with p (a ++ c :: b) = starts_with p a.
Proof.
  revert a. induction p as [|f p IH]; intros a H; [destruct a; reflexivity|].
  simpl in H. apply andb_true_iff in H as [Hf Hp].
  destruct a as [|x a]; simpl.
  - apply negb_true_iff in Hf. rewrite Hf. reflexivity.
  - rewrite IH by exact Hp. reflexivity.
Qed.

Lemma starts_with_length (p : pattern) (s : t) :
  starts_with p s = true -> (List.length p <= List.length s)%nat.
Proof.
  revert s. induction p as [|f p IH]; intros s H; simpl; [lia|].
  destruct s as [|c s]; simpl in *; [discriminate|].
  apply andb_true_iff in H as [_ H]. apply IH in H. lia.
Qed.

Lemma starts_with_app (p : pattern) (a b : t) :
  starts_with p a = true -> starts_with p (a ++ b) = true.
Proof.
  revert a. induction p as [|f p IH]; intros a H; [reflexivity|].
  destruct a as [|x a]; simpl in *; [discriminate|].
  apply andb_true_iff in H as [H1 H2]. rewrite H1, IH by exact H2.
  reflexivity.
Qed.

Section Scan.
Variable p : pattern.
Hypothesis p_nonempty : p <> [].

Lemma scan_in_space (s : t) :
  replace_scan p 0 true s = replace_scan p 0 false (trimStart s).
Proof.
  induction s as [|c s IH]; [reflexivity|].
  simpl. destruct (is_space c); [exact IH | reflexivity].
Qed.

Lemma scan_skip (k : nat) (s : t) :
  replace_scan p k true s = replace_scan p 0 true (skipn k s).
Proof.
  revert s. induction k as [|k IH]; intros s; [reflexivity|].
  destruct s as [|c s]; [reflexivity|]. simpl. apply IH.
Qed.

(** The three equations of a global replacement by the empty string. *)
Lemma replaceAll_nil : replaceAll p [] = [].
Proof. reflexivity. Qed.

Lemma replaceAll_match (s : t) :
  starts_with p s = true ->
  replaceAll p s = replaceAll p (trimStart (skipn (List.length p) s)).
Proof.
  intros H.
  assert (Hn : exists n, List.length p = S n)
    by (destruct p; [contradiction | eexists; reflexivity]).
  destruct Hn as [n Hn].
  destruct s as [|c r]; [destruct p; [contradiction | discriminate]|].
  unfold replaceAll. cbn [replace_scan andb]. rewrite H, Hn.
  cbn [Nat.pred skipn]. rewrite scan_skip, scan_in_space. reflexivity.
Qed.

Lemma replaceAll_nomatch (c : cu) (r : t) :
  starts_with p (c :: r) = false ->
  replaceAll p (c :: r) = c :: replaceAll p r.
Proof.
  intros H. unfold replaceAll. cbn [replace_scan andb]. rewrite H. reflexivity.
Qed.

Lemma replaceAll_free (s : t) : free p s = true -> replaceAll p s = s.
Proof.
  induction s as [|c s IH]; [reflexivity|].
  cbn [free]. intros H. apply andb_true_iff in H as [H1 H2].
  apply negb_true_iff in H1.
  rewrite replaceAll_nomatch by exact H1. rewrite IH by exact H2. reflexivity.
Qed.

Lemma starts_with_inert_head (c : cu) (r : t) :
  inert p c = true -> starts_with p (c :: r) = false.
Proof.
  intros H. change (c :: r) with ([] ++ c :: r).
  rewrite (starts_with_inert p [] c r H).
  destruct p; [contradiction | reflexivity].
Qed.

Lemma free_suffix (a b : t) : free p (a ++ b) = true -> free p b = true.
Proof.
  induction a as [|x a IH]; [auto|]. cbn [app free]. intros H.
  apply andb_true_iff in H as [_ H]. auto.
Qed.

Lemma free_trimStart (s : t) : free p s = true -> free p (trimStart s) = true.
Proof.
  destruct (trimStart_suffix s) as [pre E]. intros H.
  rewrite E in H. exact (free_suffix _ _ H).
Qed.

(** Pieces joined by an inert character are scanned independently. *)
Lemma free_join (c : cu) (a b : t) :
  inert p c = true -> free p a = true -> free p b = true ->
  free p (a ++ c :: b) = true.
Proof.
  intros Hc Ha Hb. induction a as [|x a IH]; cbn [app free].
  - rewrite starts_with_inert_head by exact Hc. exact Hb.
  - cbn [free] in Ha. apply andb_true_iff in Ha as [H1 H2].
    change (x :: a ++ c :: b) with ((x :: a) ++ c :: b).
    rewrite (starts_with_inert p (x :: a) c b Hc), H1. simpl. auto.
Qed.

Lemma replaceAll_join (c : cu) (a b : t) :
  inert p c = true -> free p a = true ->
  replaceAll p (a ++ c :: b) = a ++ c :: replaceAll p b.
Proof.
  intros Hc Ha. induction a as [|x a IH]; cbn [app].
  - apply replaceAll_nomatch, starts_with_inert_head, Hc.
  - cbn [free] in Ha. apply andb_true_iff in Ha as [H1 H2].
    apply negb_true_iff in H1.
    rewrite replaceAll_nomatch
      by (change (x :: a ++ c :: b) with ((x :: a) ++ c :: b);
          rewrite (starts_with_inert p (x :: a) c b Hc); exact H1).
    rewrite IH by exact H2. reflexivity.
Qed.

Lemma free_drop_last (a : t) (c : cu) :
  inert p c = true -> free p (a ++ [c]) = true -> free p a = true.
Proof.
  intros Hc. induction a as [|x a IH]; [reflexivity|].
  cbn [app free]. intros H. apply andb_true_iff in H as [H1 H2].
  change (x :: a ++ [c]) with ((x :: a) ++ [c]) in H1.
  rewrite (starts_with_inert p (x :: a) c [] Hc) in H1.
  rewrite H1. simpl. auto.
Qed.

Hypothesis space_inert : forall c, is_space c = true -> inert p c = true.

Lemma free_all_space (w : t) : all_space w = true -> free p w = true.
Proof.
  induction w as [|c w IH]; [reflexivity|]. cbn [all_space forallb free].
  intros H. apply andb_true_iff in H as [Hc Hw].
  rewrite starts_with_inert_head by auto. simpl. auto.
Qed.

Lemma free_space_app (w s : t) :
  all_space w = true -> free p s = true -> free p (w ++ s) = true.
Proof.
  intros Hw Hs. induction w as [|c w IH]; [exact Hs|].
  cbn [all_space forallb] in Hw. apply andb_true_iff in Hw as [Hc Hw].
  cbn [app free]. rewrite starts_with_inert_head by auto. simpl. auto.
Qed.

Lemma free_app_space (s w : t) :
  free p s = true -> all_space w = true -> free p (s ++ w) = true.
Proof.
  intros Hs Hw. destruct w as [|c w]; [rewrite app_nil_r; exact Hs|].
  cbn [all_space forallb] in Hw. apply andb_true_iff in Hw as [Hc Hw].
  apply free_join; auto using free_all_space.
Qed.

End Scan.

End ReplaceFacts.

(* ================================================================== *)
(** ** The two fence patterns *)
(* ================================================================== *)

Module FenceFacts.
Import JsString Js Analyze Shape StringFacts ReplaceFacts.

Lemma space_differs (c k : cu) :
  is_space c = true -> is_space k = false -> (c =? k) = false.
Proof.
  intros Hc Hk. destruct (N.eqb_spec c k) as [->|]; congruence.
Qed.

Lemma space_not_backtick (c : cu) : is_space c = true -> backtick c = false.
Proof. intros H. apply (space_differs c 96 H). reflexivity. Qed.

Lemma space_not_letter (c : cu) :
  is_space c = true -> letter 74 106 c = false.
Proof.
  intros H. unfold letter.
  rewrite (space_differs c 74 H), (space_differs c 106 H); reflexivity.
Qed.

Lemma fence_nonempty : fence <> [].
Proof. discriminate. Qed.

Lemma fence_json_nonempty : fence_json <> [].
Proof. discriminate. Qed.

Lemma space_inert_fence (c : cu) :
  is_space c = true -> inert fence c = true.
Proof.
  intros H. cbn. rewrite (space_not_backtick c H). reflexivity.
Qed.

Lemma space_inert_fence_json (c : cu) :
  is_space c = true -> inert fence_json c = true.
Proof.
  intros H. cbn -[N.eqb]. unfold backtick, letter.
  rewrite (space_differs c 96 H), (space_differs c 74 H),
    (space_differs c 106 H), (space_differs c 83 H), (space_differs c 115 H),
    (space_differs c 79 H), (space_differs c 111 H), (space_differs c 78 H),
    (space_differs c 110 H); reflexivity.
Qed.

(** A tagged fence begins with a plain fence. *)
Lemma fence_json_starts (s : t) :
  starts_with fence_json s = true -> starts_with fence s = true.
Proof.
  destruct s as [|a [|b [|c s]]]; cbn [starts_with fence_json fence];
    rewrite ?andb_false_r; try discriminate.
  destruct (backtick a), (backtick b), (backtick c); simpl;
    try discriminate; reflexivity.
Qed.

Lemma free_fence_json (s : t) :
  free fence s = true -> free fence_json s = true.
Proof.
  induction s as [|c s IH]; [reflexivity|]. cbn [free]. intros H.
  apply andb_true_iff in H as [H1 H2]. rewrite IH by exact H2.
  destruct (starts_with fence_json (c :: s)) eqn:E; [|reflexivity].
  apply fence_json_starts in E. rewrite E in H1. discriminate.
Qed.

(** A string without a triple backtick passes both replacements
    unchanged. *)
Lemma strip_fences_free (s : t) :
  free fence s = true -> strip_fences s = s.
Proof.
  intros H. unfold strip_fences.
  rewrite (replaceAll_free fence_json) by (apply free_fence_json, H).
  apply replaceAll_free, H.
Qed.

Lemma closing_free_json (w3 : t) :
  all_space w3 = true -> free fence_json (fence_text ++ w3) = true.
Proof.
  intros H. destruct w3 as [|c w]; [reflexivity|].
  cbn [all_space forallb] in H. apply andb_true_iff in H as [Hc Hw].
  apply free_join.
  - exact fence_json_nonempty.
  - apply space_inert_fence_json, Hc.
  - reflexivity.
  - apply free_all_space;
      [exact fence_json_nonempty | exact space_inert_fence_json | exact Hw].
Qed.

Lemma closing_removed (w3 : t) :
  all_space w3 = true -> replaceAll fence (fence_text ++ w3) = [].
Proof.
  intros H. rewrite replaceAll_match; [|exact fence_nonempty|reflexivity].
  change (skipn (List.length fence) (fence_text ++ w3)) with w3.
  rewrite <- (app_nil_r w3), trimStart_all_space by exact H. reflexivity.
Qed.

Lemma before_closing (y w3 : t) :
  free fence y = true -> ends_in_space y -> all_space w3 = true ->
  replaceAll fence_json (y ++ fence_text ++ w3) = y ++ fence_text ++ w3
  /\ replaceAll fence (y ++ fence_text ++ w3) = y.
Proof.
  intros Hy [->|(y' & c & -> & Hc)] Hw.
  - cbn [app]. split.
    + apply replaceAll_free, closing_free_json, Hw.
    + apply closing_removed, Hw.
  - rewrite <- app_assoc. cbn [app].
    assert (Hy' : free fence y' = true)
      by (apply (free_drop_last fence y' c);
          [apply space_inert_fence, Hc | exact Hy]).
    split.
    + apply replaceAll_free. apply free_join.
      * exact fence_json_nonempty.
      * apply space_inert_fence_json, Hc.
      * apply free_fence_json, Hy'.
      * apply closing_free_json, Hw.
    + rewrite replaceAll_join.
      * rewrite closing_removed by exact Hw. reflexivity.
      * exact fence_nonempty.
      * apply space_inert_fence, Hc.
      * exact Hy'.
Qed.

Lemma trimStart_ends_in_space (j w2 : t) :
  w2 <> [] -> all_space w2 = true -> ends_in_space (trimStart (j ++ w2)).
Proof.
  intros Hne Hw.
  destruct (exists_last Hne) as (w & c & ->).
  assert (Hc : is_space c = true).
  { unfold all_space in Hw. rewrite forallb_app in Hw.
    apply andb_true_iff in Hw as [_ Hw]. simpl in Hw.
    rewrite andb_true_r in Hw. exact Hw. }
  destruct (trimStart_suffix (j ++ w ++ [c])) as [pre E].
  destruct (trimStart (j ++ w ++ [c])) as [|y0 y] eqn:Ey; [left; reflexivity|].
  right. assert (Hy : y0 :: y <> []) by discriminate.
  destruct (exists_last Hy) as (y' & c' & Ey').
  exists y', c'. split; [exact Ey'|].
  rewrite Ey' in E. rewrite !app_assoc in E.
  apply app_inj_tail in E as [_ ->]. exact Hc.
Qed.

Lemma behind_opening (w1 j w2 w3 : t) :
  all_space w1 = true ->
  trimStart (w1 ++ j ++ w2 ++ fence_text ++ w3)
  = trimStart (j ++ w2) ++ fence_text ++ w3.
Proof.
  intros H1. rewrite trimStart_all_space by exact H1.
  rewrite (app_assoc j w2), trimStart_app.
  destruct (trimStart (j ++ w2)); reflexivity.
Qed.

(** What the two replacements leave of a wrapped text. *)
Lemma strip_fences_wrapped (tag w1 j w2 w3 : t) :
  fence_tag tag = true ->
  (tag = [] -> w1 <> []) ->
  all_space w1 = true ->
  w2 <> [] -> all_space w2 = true ->
  all_space w3 = true ->
  free fence j = true ->
  strip_fences (wrapped tag w1 j w2 w3) = trimStart (j ++ w2).
Proof.
  intros Htag Hsep H1 Hne2 H2 H3 Hj.
  assert (Hy : free fence (trimStart (j ++ w2)) = true).
  { apply free_trimStart. apply free_app_space; auto.
    - exact fence_nonempty.
    - exact space_inert_fence. }
  destruct (before_closing _ w3 Hy (trimStart_ends_in_space j w2 Hne2 H2) H3)
    as [Pass1 Pass2].
  unfold strip_fences, wrapped.
  destruct tag as [|a [|b [|c [|d [|]]]]]; try discriminate.
  - (* plain fence: the first replacement finds nothing *)
    destruct w1 as [|c1 w1']; [exfalso; apply Hsep; reflexivity|].
    cbn [all_space forallb] in H1. apply andb_true_iff in H1 as [Hc1 H1'].
    cbn [app]. rewrite (replaceAll_free fence_json).
    + rewrite replaceAll_match; [|exact fence_nonempty|reflexivity].
      change (skipn _ (fence_text ++ c1 :: w1' ++ j ++ w2 ++ fence_text ++ w3))
        with ((c1 :: w1') ++ j ++ w2 ++ fence_text ++ w3).
      rewrite behind_opening
        by (cbn [all_space forallb]; rewrite Hc1; exact H1').
      exact Pass2.
    + apply free_join.
      * exact fence_json_nonempty.
      * apply space_inert_fence_json, Hc1.
      * reflexivity.
      * apply free_space_app;
          [exact fence_json_nonempty | exact space_inert_fence_json
          | exact H1' |].
        destruct w2 as [|c2 w2']; [contradiction|].
        cbn [all_space forallb] in H2.
        apply andb_true_iff in H2 as [Hc2 H2'].
        cbn [app]. apply free_join.
        -- exact fence_json_nonempty.
        -- apply space_inert_fence_json, Hc2.
        -- apply free_fence_json, Hj.
        -- apply free_space_app;
             [exact fence_json_nonempty | exact space_inert_fence_json
             | exact H2' | apply closing_free_json, H3].
  - (* tagged fence: removed by the first replacement *)
    rewrite (replaceAll_match fence_json); [|exact fence_json_nonempty|].
    2:{ cbn [fence_tag] in Htag.
        change (fence_text ++ [a; b; c; d] ++ w1 ++ j ++ w2 ++ fence_text ++ w3)
          with (96 :: 96 :: 96 :: a :: b :: c :: d
                :: w1 ++ j ++ w2 ++ fence_text ++ w3).
        cbn [starts_with fence_json]. change (backtick 96) with true.
        destruct (letter 74 106 a), (letter 83 115 b), (letter 79 111 c),
          (letter 78 110 d); simpl in *; congruence. }
    change (skipn _ (fence_text ++ [a; b; c; d] ++ w1 ++ j ++ w2
                     ++ fence_text ++ w3))
      with (w1 ++ j ++ w2 ++ fence_text ++ w3).
    rewrite behind_opening by exact H1.
    rewrite Pass1. exact Pass2.
Qed.

End FenceFacts.

(* ================================================================== *)
(** ** JSON.parse never yields undefined *)
(* ================================================================== *)

Module JsonFacts.
Import JsString Json Shape.

Lemma reduce_settled (v : value) (stk : list frame) :
  Contract.defined v = true -> settled (reduce v stk).
Proof. destruct stk as [|[acc|acc key] stk]; simpl; auto. Qed.

Lemma begin_value_settled (tk : token) (stk : list frame) (st : pstate) :
  begin_value tk stk = Some st -> settled st.
Proof.
  destruct tk; simpl; intros H; inversion H; subst;
    try (apply reduce_settled; reflexivity); exact I.
Qed.

Lemma parse_step_settled (st : pstate) (tk : token) (st' : pstate) :
  parse_step st tk = Some st' -> settled st'.
Proof.
  destruct st; simpl; intros H;
    try (destruct tk; try discriminate; inversion H; subst;
         solve [ exact I
               | apply reduce_settled; reflexivity
               | eapply begin_value_settled; eassumption ]).
Qed.

Lemma parse_from_settled (toks : list token) (st : pstate) (v : value) :
  settled st -> parse_from st toks = Some v -> Contract.defined v = true.
Proof.
  revert st. induction toks as [|tk toks IH]; intros st Hst; simpl.
  - destruct st; try discriminate. intros [= <-]. exact Hst.
  - destruct (parse_step st tk) as [st'|] eqn:E; [|discriminate].
    apply IH. eapply parse_step_settled; eassumption.
Qed.

Lemma parse_defined (text : t) (v : value) :
  parse text = Some v -> Contract.defined v = true.
Proof.
  unfold parse. destruct (lex text) as [toks|]; [|discriminate].
  apply parse_from_settled. exact I.
Qed.

End JsonFacts.

(* ================================================================== *)
(** ** The paths through the handler *)
(* ================================================================== *)

Module HandlerFacts.
Import JsString Js Analyze Shape StringFacts.

Lemma too_short_string (s : t) (what : string) (min : Z) :
  (0 < min)%Z ->
  too_short (VStr s) what min = Normal (length (trim s) <? min)%Z.
Proof.
  intros Hmin. unfold too_short. destruct s as [|c s]; [|reflexivity].
  cbn. f_equal. symmetry. apply Z.ltb_lt. exact Hmin.
Qed.

Section Request.
Variables (req_body : value) (resume jobDescription : t).
Hypothesis Hresume : resume_field req_body = Normal (VStr resume).
Hypothesis Hjd : jobDescription_field req_body = Normal (VStr jobDescription).

Lemma handler_short_jd :
  (50 <= length (trim resume))%Z ->
  (length (trim jobDescription) < 30)%Z ->
  handler req_body = Finished (Sent jd_too_short).
Proof.
  intros Hr Hj. unfold resume_field, jobDescription_field in *.
  unfold handler, handler_body. rewrite Hresume, Hjd. cbn [bind].
  rewrite !too_short_string by lia. cbn [bind].
  apply Z.ltb_ge in Hr. apply Z.ltb_lt in Hj. rewrite Hr, Hj. reflexivity.
Qed.

Lemma handler_valid :
  (50 <= length (trim resume))%Z ->
  (30 <= length (trim jobDescription))%Z ->
  handler req_body =
  Await (create_request (substring 0 6000 (trim resume))
                        (substring 0 3000 (trim jobDescription)))
        after_completion.
Proof.
  intros Hr Hj. unfold resume_field, jobDescription_field in *.
  unfold handler, handler_body. rewrite Hresume, Hjd. cbn [bind].
  rewrite !too_short_string by lia. cbn [bind].
  apply Z.ltb_ge in Hr, Hj. rewrite Hr, Hj. reflexivity.
Qed.

(** With a valid request, the response is decided by what the remote
    model answers to the one call of the run. *)
Lemma endpoint_valid (env : environment)
    (remote : chat_request -> completion value) (c : completion value) :
  (50 <= length (trim resume))%Z ->
  (30 <= length (trim jobDescription))%Z ->
  answers remote (handler req_body) c ->
  endpoint env req_body remote = settle env (after_completion c).
Proof.
  intros Hr Hj Hc. unfold endpoint, answers in *.
  rewrite (handler_valid Hr Hj) in *. rewrite Hc; [reflexivity|].
  left. reflexivity.
Qed.

End Request.

(** The resume check answers before [jobDescription] is looked at. *)
Lemma handler_short_resume (req_body : value) (resume : t) (jd : value) :
  resume_field req_body = Normal (VStr resume) ->
  jobDescription_field req_body = Normal jd ->
  (length (trim resume) < 50)%Z ->
  handler req_body = Finished (Sent resume_too_short).
Proof.
  intros Hresume Hjd Hr. unfold resume_field, jobDescription_field in *.
  unfold handler, handler_body. rewrite Hresume, Hjd. cbn [bind].
  rewrite too_short_string by lia. cbn [bind].
  apply Z.ltb_lt in Hr. rewrite Hr. reflexivity.
Qed.

(** An absent or otherwise falsy resume gets the resume error. *)
Lemma handler_falsy_resume (req_body : value) (resume jd : value) :
  resume_field req_body = Normal resume ->
  jobDescription_field req_body = Normal jd ->
  truthy resume = false ->
  handler req_body = Finished (Sent resume_too_short).
Proof.
  intros Hresume Hjd Hf. unfold resume_field, jobDescription_field in *.
  unfold handler, handler_body. rewrite Hresume, Hjd. cbn [bind].
  unfold too_short. rewrite Hf. reflexivity.
Qed.

(** A parsed value is wrapped as it is. *)
Lemma parse_response_some (raw : t) (v : value) :
  Json.parse (cleaned raw) = Some v ->
  parse_response (VStr raw) = Response 200 (success_body v).
Proof. intros H. cbn [parse_response]. rewrite H. reflexivity. Qed.

Lemma parse_response_none (raw : t) :
  Json.parse (cleaned raw) = None ->
  parse_response (VStr raw) = unexpected_format.
Proof. intros H. cbn [parse_response]. rewrite H. reflexivity. Qed.

(** The four ways a run of the handler can go. *)
Lemma handler_cases (req_body : value) :
  (exists e, handler req_body = Finished (Next e))
  \/ handler req_body = Finished (Sent resume_too_short)
  \/ handler req_body = Finished (Sent jd_too_short)
  \/ exists req, handler req_body = Await req after_completion.
Proof.
  unfold handler, handler_body.
  destruct (destructure req_body "resume" "req.body") as [r|e];
    [|left; eexists; reflexivity].
  destruct (destructure req_body "jobDescription" "req.body") as [j|e];
    [|left; eexists; reflexivity].
  cbn [bind].
  destruct (too_short r "resume" 50) as [[|]|e];
    [right; left; reflexivity| |left; eexists; reflexivity].
  cbn [bind].
  destruct (too_short j "jobDescription" 30) as [[|]|e];
    [right; right; left; reflexivity| |left; eexists; reflexivity].
  cbn [bind].
  destruct (call_trim r "resume") as [tr|e];
    [|left; eexists; reflexivity].
  destruct (call_trim j "jobDescription") as [tj|e];
    [|left; eexists; reflexivity].
  right; right; right. eexists. reflexivity.
Qed.

(** A request whose two fields are not both strings never reaches the
    remote model. *)
Lemma no_call_without_strings (req_body : value) :
  (forall s, resume_field req_body <> Normal (VStr s))
  \/ (forall s, jobDescription_field req_body <> Normal (VStr s)) ->
  remote_calls (handler req_body) = [].
Proof.
  unfold resume_field, jobDescription_field, handler, handler_body.
  intros H.
  destruct (destructure req_body "resume" "req.body") as [r|e];
    [|reflexivity].
  destruct (destructure req_body "jobDescription" "req.body") as [j|e];
    [|reflexivity].
  cbn [bind].
  destruct (too_short r "resume" 50) as [[|]|e]; try reflexivity.
  cbn [bind].
  destruct (too_short j "jobDescription" 30) as [[|]|e]; try reflexivity.
  cbn [bind].
  destruct r; try reflexivity.
  destruct j; try reflexivity.
  destruct H as [H|H]; exfalso; eapply H; reflexivity.
Qed.

End HandlerFacts.

(* ================================================================== *)
(** ** A wrapped text is cleaned like the text itself *)
(* ================================================================== *)

Module WrapFacts.
Import JsString Js Analyze Shape StringFacts ReplaceFacts FenceFacts.

Lemma trimStart_split (s : t) :
  exists pre, all_space pre = true /\ s = pre ++ trimStart s.
Proof.
  induction s as [|c s (pre & Hp & E)]; simpl.
  - exists []. split; reflexivity.
  - destruct (is_space c) eqn:Ec.
    + exists (c :: pre). simpl. rewrite Ec, Hp. split; [reflexivity|].
      f_equal. exact E.
    + exists []. split; reflexivity.
Qed.

Lemma trimEnd_cons (c : cu) (x : t) :
  trimEnd (c :: x)
  = match trimEnd x with
    | [] => if is_space c then [] else [c]
    | y => c :: y
    end.
Proof.
  unfold trimEnd. cbn [rev]. rewrite trimStart_app.
  destruct (trimStart (rev x)) as [|d r]; cbn [rev].
  - simpl. destruct (is_space c); reflexivity.
  - rewrite rev_app_distr. cbn [rev app].
    destruct (rev r ++ [d]) eqn:E; [|reflexivity].
    destruct (rev r); discriminate.
Qed.

Lemma trim_commutes (y : t) : trimEnd (trimStart y) = trimStart (trimEnd y).
Proof.
  induction y as [|c y IH]; [reflexivity|].
  rewrite trimEnd_cons. cbn [trimStart].
  destruct (is_space c) eqn:Ec.
  - rewrite IH. destruct (trimEnd y) as [|d r]; [reflexivity|].
    change (trimStart (c :: d :: r))
      with (if is_space c then trimStart (d :: r) else c :: d :: r).
    rewrite Ec. reflexivity.
  - rewrite trimEnd_cons, Ec.
    destruct (trimEnd y); cbn [trimStart]; rewrite Ec; reflexivity.
Qed.

Lemma trim_lead (lead x : t) :
  all_space lead = true -> trim (lead ++ x) = trim x.
Proof.
  intros H. unfold trim. rewrite trimStart_all_space by exact H. reflexivity.
Qed.

(** A match needs its last character: it cannot reach into a text none
    of whose characters can be that one. *)
Lemma starts_with_last (p : pattern) (f : cu -> bool) (s tl : t) :
  forallb (fun c => negb (f c)) tl = true ->
  starts_with (p ++ [f]) (s ++ tl) = true ->
  starts_with (p ++ [f]) s = true.
Proof.
  revert s tl. induction p as [|g p IH]; intros s tl Htl H.
  - destruct s as [|x s]; [|exact H].
    destruct tl as [|c tl]; [discriminate|]. simpl in *.
    apply andb_true_iff in Htl as [Hc _]. apply andb_true_iff in H as [H _].
    rewrite H in Hc. discriminate.
  - destruct s as [|x s].
    + destruct tl as [|c tl]; [discriminate|]. simpl in *.
      apply andb_true_iff in Htl as [_ Htl]. apply andb_true_iff in H as [_ H].
      specialize (IH [] tl Htl H). destruct p; discriminate.
    + simpl in *. apply andb_true_iff in H as [H1 H2].
      rewrite H1, (IH s tl Htl H2). reflexivity.
Qed.

Lemma free_without_last (p : pattern) (f : cu -> bool) (s : t) :
  forallb (fun c => negb (f c)) s = true -> free (p ++ [f]) s = true.
Proof.
  induction s as [|c s IH]; intros H; [reflexivity|]. cbn [free].
  rewrite IH by (simpl in H; apply andb_true_iff in H as [_ H]; exact H).
  destruct (starts_with (p ++ [f]) (c :: s)) eqn:E; [|reflexivity].
  apply (starts_with_last p f [] (c :: s) H) in E.
  destruct p; discriminate.
Qed.

Lemma replaceAll_space_app (p : pattern) (w s : t) :
  p <> [] -> (forall c, is_space c = true -> inert p c = true) ->
  all_space w = true -> replaceAll p (w ++ s) = w ++ replaceAll p s.
Proof.
  intros Hp Hi. induction w as [|c w IH]; intros H; [reflexivity|].
  cbn [all_space forallb] in H. apply andb_true_iff in H as [Hc Hw].
  cbn [app].
  rewrite replaceAll_nomatch by (apply starts_with_inert_head; auto).
  rewrite IH by exact Hw. reflexivity.
Qed.

Lemma fence_json_last : fence_json = fence_json_fixed ++ [letter 78 110].
Proof. reflexivity. Qed.

Lemma space_not_n (w : t) :
  all_space w = true -> forallb (fun c => negb (letter 78 110 c)) w = true.
Proof.
  induction w as [|c w IH]; [reflexivity|]. cbn [all_space forallb].
  intros H. apply andb_true_iff in H as [Hc Hw]. rewrite (IH Hw).
  unfold letter. rewrite (space_differs c 78 Hc), (space_differs c 110 Hc);
    reflexivity.
Qed.

Lemma closing_not_n (w w3 : t) :
  all_space w = true -> all_space w3 = true ->
  forallb (fun c => negb (letter 78 110 c)) (w ++ fence_text ++ w3) = true.
Proof.
  intros Hw H3. rewrite !forallb_app, (space_not_n w Hw), (space_not_n w3 H3).
  reflexivity.
Qed.

(** A tagged fence never reaches into the closing part. *)
Lemma no_straddle_json (s w w3 : t) :
  all_space w = true -> all_space w3 = true ->
  starts_with fence_json (s ++ w ++ fence_text ++ w3)
  = starts_with fence_json s.
Proof.
  intros Hw H3.
  destruct (starts_with fence_json s) eqn:E.
  - apply starts_with_app, E.
  - destruct (starts_with fence_json (s ++ w ++ fence_text ++ w3)) eqn:E';
      [|reflexivity].
    rewrite fence_json_last in E'.
    apply starts_with_last in E'; [|apply closing_not_n; assumption].
    rewrite <- fence_json_last in E'. congruence.
Qed.

Lemma trimStart_before_closing (y w w3 : t) :
  all_space w = true ->
  exists w', all_space w' = true
    /\ trimStart (y ++ w ++ fence_text ++ w3)
       = trimStart y ++ w' ++ fence_text ++ w3.
Proof.
  intros Hw. rewrite trimStart_app.
  destruct (trimStart y) as [|c r].
  - exists []. split; [reflexivity|].
    rewrite trimStart_all_space by exact Hw. reflexivity.
  - exists w. split; [exact Hw | reflexivity].
Qed.

Lemma skipn_within (n : nat) (s tl : t) :
  (n <= List.length s)%nat -> skipn n (s ++ tl) = skipn n s ++ tl.
Proof.
  intros H. rewrite skipn_app.
  replace (n - List.length s)%nat with 0%nat by lia. reflexivity.
Qed.

(** The first replacement, in front of the closing part. *)
Lemma json_before_closing (w3 : t) :
  all_space w3 = true ->
  forall n s w, (List.length s <= n)%nat -> all_space w = true ->
    exists w', all_space w' = true
      /\ replaceAll fence_json (s ++ w ++ fence_text ++ w3)
         = replaceAll fence_json s ++ w' ++ fence_text ++ w3.
Proof.
  intros H3. induction n as [|n IH]; intros s w Hn Hw.
  - destruct s; [|simpl in Hn; lia]. exists w. split; [exact Hw|].
    change (replaceAll fence_json []) with (@nil cu). cbn [app].
    apply replaceAll_free.
    apply free_space_app;
      [exact fence_json_nonempty | exact space_inert_fence_json
      | exact Hw | apply closing_free_json, H3].
  - destruct s as [|c r].
    + exists w. split; [exact Hw|].
      change (replaceAll fence_json []) with (@nil cu). cbn [app].
      apply replaceAll_free.
      apply free_space_app;
        [exact fence_json_nonempty | exact space_inert_fence_json
        | exact Hw | apply closing_free_json, H3].
    + pose proof (no_straddle_json (c :: r) w w3 Hw H3) as Hctx.
      destruct (starts_with fence_json (c :: r)) eqn:E.
      * pose proof (starts_with_length _ _ E) as Hlen.
        rewrite (replaceAll_match fence_json fence_json_nonempty _ Hctx).
        rewrite (replaceAll_match fence_json fence_json_nonempty _ E).
        rewrite skipn_within by exact Hlen.
        destruct (trimStart_before_closing
                    (skipn (List.length fence_json) (c :: r)) w w3 Hw)
          as (w1 & Hw1 & ->).
        apply IH; [|exact Hw1].
        pose proof (trimStart_length (skipn (List.length fence_json) (c :: r))).
        pose proof (length_skipn (List.length fence_json) (c :: r)).
        change (List.length fence_json) with 7%nat in *.
        simpl List.length in *. lia.
      * cbn [app] in *.
        rewrite (replaceAll_nomatch fence_json c _ Hctx).
        rewrite (replaceAll_nomatch fence_json c r E).
        destruct (IH r w) as (w1 & Hw1 & ->);
          [simpl in Hn; lia | exact Hw|].
        exists w1. split; [exact Hw1 | reflexivity].
Qed.

Lemma closing_after_space (w w3 : t) :
  all_space w = true -> all_space w3 = true ->
  replaceAll fence (w ++ fence_text ++ w3) = w.
Proof.
  intros Hw H3.
  rewrite replaceAll_space_app;
    [|exact fence_nonempty | exact space_inert_fence | exact Hw].
  rewrite closing_removed by exact H3. apply app_nil_r.
Qed.

Lemma trimEnd_spaces (s w : t) :
  all_space w = true -> trimEnd (s ++ w) = trimEnd s.
Proof. apply trimEnd_all_space. Qed.

Lemma ticks_then_space (w3 : t) :
  all_space w3 = true ->
  free fence (96 :: w3) = true /\ free fence (96 :: 96 :: w3) = true.
Proof.
  intros H. destruct w3 as [|c w]; [split; reflexivity|].
  cbn [all_space forallb] in H. apply andb_true_iff in H as [Hc Hw].
  assert (Fw : free fence w = true)
    by (apply free_all_space;
        [exact fence_nonempty | exact space_inert_fence | exact Hw]).
  split.
  - apply (free_join fence fence_nonempty c [96] w);
      [apply space_inert_fence, Hc | reflexivity | exact Fw].
  - apply (free_join fence fence_nonempty c [96; 96] w);
      [apply space_inert_fence, Hc | reflexivity | exact Fw].
Qed.

Lemma backtick_is_96 (a : cu) : backtick a = true -> a = 96.
Proof. unfold backtick. apply N.eqb_eq. Qed.

(** The second replacement, in front of the closing part: up to white
    space at the end, the closing fence leaves no trace. *)
Lemma fence_before_closing (w3 : t) :
  all_space w3 = true ->
  forall n s w, (List.length s <= n)%nat -> all_space w = true ->
    trimEnd (replaceAll fence (s ++ w ++ fence_text ++ w3))
    = trimEnd (replaceAll fence s).
Proof.
  intros H3.
  assert (Base : forall w, all_space w = true ->
            trimEnd (replaceAll fence ([] ++ w ++ fence_text ++ w3))
            = trimEnd (replaceAll fence [])).
  { intros w Hw. cbn [app]. rewrite closing_after_space by assumption.
    change w with ([] ++ w). apply trimEnd_spaces, Hw. }
  induction n as [|n IH]; intros s w Hn Hw.
  - destruct s; [|simpl in Hn; lia]. apply Base, Hw.
  - destruct s as [|c r]; [apply Base, Hw|].
    destruct (starts_with fence ((c :: r) ++ w ++ fence_text ++ w3)) eqn:Ectx.
    + destruct (starts_with fence (c :: r)) eqn:E.
      * (* a fence inside the text *)
        pose proof (starts_with_length _ _ E) as Hlen.
        rewrite (replaceAll_match fence fence_nonempty _ Ectx).
        rewrite (replaceAll_match fence fence_nonempty _ E).
        rewrite skipn_within by exact Hlen.
        destruct (trimStart_before_closing
                    (skipn (List.length fence) (c :: r)) w w3 Hw)
          as (w1 & Hw1 & ->).
        apply IH; [|exact Hw1].
        pose proof (trimStart_length (skipn (List.length fence) (c :: r))).
        pose proof (length_skipn (List.length fence) (c :: r)).
        change (List.length fence) with 3%nat in *.
        simpl List.length in *. lia.
      * (* one or two backticks at the end of the text run into the
           closing fence: the match takes the first three, as many
           backticks as the text had are left *)
        destruct r as [|b [|c' r]].
        -- destruct w as [|x w].
           ++ cbn [app starts_with fence] in Ectx.
              apply andb_true_iff in Ectx as [Ha _].
              apply backtick_is_96 in Ha. subst c.
              rewrite (replaceAll_match fence fence_nonempty) by reflexivity.
              change (trimStart (skipn (List.length fence)
                        ([96] ++ [] ++ fence_text ++ w3)))
                with (96 :: w3).
              rewrite replaceAll_free by (apply ticks_then_space, H3).
              change (96 :: w3) with ([96] ++ w3).
              rewrite trimEnd_spaces by exact H3. reflexivity.
           ++ exfalso. cbn [all_space forallb] in Hw.
              apply andb_true_iff in Hw as [Hx _].
              cbn [app starts_with fence] in Ectx.
              rewrite (space_not_backtick x Hx), andb_false_r in Ectx.
              discriminate.
        -- destruct w as [|x w].
           ++ cbn [app starts_with fence] in Ectx.
              apply andb_true_iff in Ectx as [Ha Hb].
              apply andb_true_iff in Hb as [Hb _].
              apply backtick_is_96 in Ha, Hb. subst c b.
              rewrite (replaceAll_match fence fence_nonempty) by reflexivity.
              change (trimStart (skipn (List.length fence)
                        ([96; 96] ++ [] ++ fence_text ++ w3)))
                with (96 :: 96 :: w3).
              rewrite replaceAll_free by (apply ticks_then_space, H3).
              change (96 :: 96 :: w3) with ([96; 96] ++ w3).
              rewrite trimEnd_spaces by exact H3. reflexivity.
           ++ exfalso. cbn [all_space forallb] in Hw.
              apply andb_true_iff in Hw as [Hx _].
              cbn [app starts_with fence] in Ectx.
              rewrite (space_not_backtick x Hx), !andb_false_r in Ectx.
              discriminate.
        -- exfalso. cbn [app starts_with fence] in Ectx, E. congruence.
    + (* no fence here *)
      assert (E : starts_with fence (c :: r) = false).
      { destruct (starts_with fence (c :: r)) eqn:E; [|reflexivity].
        rewrite (starts_with_app fence _ (w ++ fence_text ++ w3) E) in Ectx.
        discriminate. }
      cbn [app] in *.
      rewrite (replaceAll_nomatch fence c _ Ectx).
      rewrite (replaceAll_nomatch fence c r E).
      rewrite !trimEnd_cons. rewrite IH by (simpl in Hn; lia || exact Hw).
      reflexivity.
Qed.

Lemma trim_before_closing (s w w3 : t) :
  all_space w = true -> all_space w3 = true ->
  trim (replaceAll fence (s ++ w ++ fence_text ++ w3))
  = trim (replaceAll fence s).
Proof.
  intros Hw H3. unfold trim. rewrite !trim_commutes.
  rewrite (fence_before_closing w3 H3 (List.length s) s w (le_n _) Hw).
  reflexivity.
Qed.

Lemma trim_fence_lead (y : t) :
  trim (replaceAll fence y) = trim (replaceAll fence (trimStart y)).
Proof.
  destruct (trimStart_split y) as (pre & Hp & E).
  rewrite E at 1.
  rewrite replaceAll_space_app;
    [|exact fence_nonempty | exact space_inert_fence | exact Hp].
  apply trim_lead, Hp.
Qed.

Lemma cleaned_lead (inner : t) :
  cleaned inner
  = trim (replaceAll fence (replaceAll fence_json (trimStart inner))).
Proof.
  unfold cleaned, strip_fences.
  destruct (trimStart_split inner) as (pre & Hp & E).
  rewrite E at 1.
  rewrite replaceAll_space_app;
    [|exact fence_json_nonempty | exact space_inert_fence_json | exact Hp].
  rewrite replaceAll_space_app;
    [|exact fence_nonempty | exact space_inert_fence | exact Hp].
  apply trim_lead, Hp.
Qed.

(** Behind the opening fence: what is left to the second replacement
    once the first has run over the text and the closing part. *)
Lemma cleaned_behind_opening (x w w3 : t) :
  all_space w = true -> all_space w3 = true ->
  trim (replaceAll fence
          (trimStart (replaceAll fence_json x ++ w ++ fence_text ++ w3)))
  = trim (replaceAll fence (replaceAll fence_json x)).
Proof.
  intros Hw H3.
  destruct (trimStart_before_closing (replaceAll fence_json x) w w3 Hw)
    as (w' & Hw' & ->).
  rewrite trim_before_closing by assumption.
  symmetry. apply trim_fence_lead.
Qed.

(** The cleaned text of a wrapped text is the cleaned text itself. *)
Lemma cleaned_wrapped (tag w1 inner w2 w3 : t) :
  fence_tag tag = true ->
  (tag = [] -> untagged_opening (w1 ++ inner) = true) ->
  all_space w1 = true -> all_space w2 = true -> all_space w3 = true ->
  cleaned (wrapped tag w1 inner w2 w3) = cleaned inner.
Proof.
  intros Htag Hopen H1 H2 H3.
  unfold wrapped.
  destruct tag as [|a [|b [|c [|d [|]]]]]; try discriminate.
  - (* plain opening fence: the first replacement passes over it *)
    specialize (Hopen eq_refl). unfold untagged_opening in Hopen.
    apply andb_true_iff in Hopen as [Hopen P2].
    apply andb_true_iff in Hopen as [P0 P1].
    apply negb_true_iff in P0, P1, P2.
    cbn [app]. rewrite (app_assoc w1 inner).
    set (m := w1 ++ inner) in *.
    unfold cleaned at 1, strip_fences.
    change (fence_text ++ m ++ w2 ++ fence_text ++ w3)
      with (96 :: 96 :: 96 :: m ++ w2 ++ fence_text ++ w3).
    rewrite (replaceAll_nomatch fence_json 96)
      by (rewrite <- P0; apply (no_straddle_json (96 :: 96 :: 96 :: m));
          assumption).
    rewrite (replaceAll_nomatch fence_json 96)
      by (rewrite <- P1; apply (no_straddle_json (96 :: 96 :: m));
          assumption).
    rewrite (replaceAll_nomatch fence_json 96)
      by (rewrite <- P2; apply (no_straddle_json (96 :: m)); assumption).
    destruct (json_before_closing w3 H3 (List.length m) m w2 (le_n _) H2)
      as (w' & Hw' & ->).
    rewrite (replaceAll_match fence fence_nonempty) by reflexivity.
    cbn [skipn List.length fence].
    rewrite cleaned_behind_opening by assumption.
    subst m.
    rewrite replaceAll_space_app;
      [|exact fence_json_nonempty | exact space_inert_fence_json | exact H1].
    rewrite replaceAll_space_app;
      [|exact fence_nonempty | exact space_inert_fence | exact H1].
    rewrite trim_lead by exact H1. reflexivity.
  - (* tagged opening fence *)
    unfold cleaned at 1, strip_fences.
    rewrite (replaceAll_match fence_json); [|exact fence_json_nonempty|].
    2:{ cbn [fence_tag] in Htag.
        change (fence_text ++ [a; b; c; d] ++ w1 ++ inner ++ w2 ++ fence_text ++ w3)
          with (96 :: 96 :: 96 :: a :: b :: c :: d
                :: w1 ++ inner ++ w2 ++ fence_text ++ w3).
        cbn [starts_with fence_json]. change (backtick 96) with true.
        destruct (letter 74 106 a), (letter 83 115 b), (letter 79 111 c),
          (letter 78 110 d); simpl in *; congruence. }
    change (skipn _ (fence_text ++ [a; b; c; d] ++ w1 ++ inner ++ w2
                     ++ fence_text ++ w3))
      with (w1 ++ inner ++ w2 ++ fence_text ++ w3).
    rewrite trimStart_all_space by exact H1.
    destruct (trimStart_before_closing inner w2 w3 H2) as (w' & Hw' & ->).
    destruct (json_before_closing w3 H3 (List.length (trimStart inner))
                (trimStart inner) w' (le_n _) Hw') as (w'' & Hw'' & ->).
    rewrite trim_before_closing by assumption.
    symmetry. apply cleaned_lead.
Qed.

Lemma fence_head (x : cu) (r : t) :
  backtick x = false -> starts_with fence (x :: r) = false.
Proof. intros H. cbn [starts_with fence]. rewrite H. reflexivity. Qed.

(** Where no fence starts before the replacement, none starts behind
    it. *)
Lemma no_fence_at_head (s : t) :
  starts_with fence s = false ->
  starts_with fence (replaceAll fence s) = false.
Proof.
  intros H. destruct s as [|a [|b [|c r]]].
  - reflexivity.
  - rewrite replaceAll_nomatch by exact H. exact H.
  - rewrite replaceAll_nomatch by exact H.
    rewrite (replaceAll_nomatch fence b [])
      by (cbn [starts_with fence]; apply andb_false_r).
    exact H.
  - rewrite replaceAll_nomatch by exact H.
    cbn [starts_with fence] in H.
    destruct (backtick a) eqn:Ea; [|apply fence_head, Ea].
    destruct (backtick b) eqn:Eb.
    + destruct (backtick c) eqn:Ec; [discriminate|].
      rewrite (replaceAll_nomatch fence b (c :: r))
        by (cbn [starts_with fence]; rewrite Ec, andb_false_r; reflexivity).
      rewrite (replaceAll_nomatch fence c r) by (apply fence_head, Ec).
      cbn [starts_with fence]. rewrite Ec, !andb_false_r. reflexivity.
    + rewrite (replaceAll_nomatch fence b (c :: r)) by (apply fence_head, Eb).
      cbn [starts_with fence]. rewrite Eb, !andb_false_r. reflexivity.
Qed.

Lemma replaceAll_fence_is_free (n : nat) (s : t) :
  (List.length s <= n)%nat -> free fence (replaceAll fence s) = true.
Proof.
  revert s. induction n as [|n IH]; intros s Hn.
  - destruct s; [reflexivity | simpl in Hn; lia].
  - destruct s as [|c r]; [reflexivity|].
    destruct (starts_with fence (c :: r)) eqn:E.
    + rewrite replaceAll_match by (exact fence_nonempty || exact E).
      apply IH.
      pose proof (trimStart_length (skipn (List.length fence) (c :: r))) as H1.
      pose proof (length_skipn (List.length fence) (c :: r)) as H2.
      change (List.length fence) with 3%nat in *. simpl List.length in *. lia.
    + pose proof (no_fence_at_head (c :: r) E) as H.
      rewrite replaceAll_nomatch in * by exact E.
      cbn [free]. rewrite H. simpl. apply IH. simpl in Hn. lia.
Qed.

Lemma strip_fences_no_fence (rawContent : t) :
  free fence (strip_fences rawContent) = true.
Proof.
  unfold strip_fences. eapply replaceAll_fence_is_free. reflexivity.
Qed.

(** White space right behind the opening fence keeps it untagged. *)
Lemma untagged_opening_space (c : cu) (m : t) :
  is_space c = true -> untagged_opening (c :: m) = true.
Proof.
  intros Hc. unfold untagged_opening. cbn [starts_with fence_json].
  rewrite (space_not_letter c Hc), (space_not_backtick c Hc).
  rewrite !andb_false_r. reflexivity.
Qed.

End WrapFacts.

(* ================================================================== *)
(** ** The built-ins on concrete inputs *)
(* ================================================================== *)

Module Checks.
Import JsString Js Analyze Samples.

Example trim_both_ends :
  trim (lit "  a b" ++ nl ++ [160; 65279]) = lit "a b".
Proof. reflexivity. Qed.

Example substring_clamps : substring 0 6000 (lit "abcdef") = lit "abcdef".
Proof. reflexivity. Qed.

Example substring_cuts : substring 0 3 (lit "abcdef") = lit "abc".
Proof. reflexivity. Qed.

Example substring_swaps : substring 4 1 (lit "abcdef") = lit "bcd".
Proof. reflexivity. Qed.

Example replace_everywhere :
  replaceAll fence (lit "```  a``b```" ++ nl ++ lit "  c````d")
  = lit "a``bc`d".
Proof. reflexivity. Qed.

Example replace_tag_any_case :
  replaceAll fence_json (lit "```JsOn" ++ nl ++ lit "{}```json") = lit "{}".
Proof. reflexivity. Qed.

(** Three backticks right in front of json form a tagged fence. *)
Example untagged_fence_before_json :
  cleaned (Shape.wrapped [] [] (lit "json{}") [] []) = lit "{}"
  /\ cleaned (lit "json{}") = lit "json{}"
  /\ Shape.untagged_opening (lit "json{}") = false.
Proof. repeat split; reflexivity. Qed.

(** Backticks at either end of the wrapped text survive the fences. *)
Example backticks_next_to_fences :
  cleaned (Shape.wrapped [] [] (lit "`x``") [] []) = lit "`x``"
  /\ cleaned (lit "`x``") = lit "`x``".
Proof. split; reflexivity. Qed.

(** A number is falsy when its double is a zero: [1e-400] and [2e-324]
    round to zero, [3e-324] rounds to the least positive double. *)
Example truthy_numbers :
  List.map truthy
    [ VNum 0 0; VNum 0 5; VNum 1 (-400); VNum 2 (-324); VNum 3 (-324);
      VNum 5 (-324); VNum (-1) (-400); VNum 12345 0; VNum 1 400 ]
  = [ false; false; false; false; true; true; false; true; true ].
Proof. vm_compute. reflexivity. Qed.

Example tiny_number_resume_is_rejected :
  endpoint (Env None) (request (VNum 1 (-400)) (VStr jd42))
    (fun _ => Normal (reply fenced_A))
  = resume_too_short.
Proof. vm_compute. reflexivity. Qed.

Example cleaned_scenario_A : cleaned fenced_A = payload_A.
Proof. vm_compute. reflexivity. Qed.

Example parse_scenario_A : Json.parse payload_A = Some value_A.
Proof. vm_compute. reflexivity. Qed.

Example parse_nested :
  Json.parse (lit " [1, -2.50, 3e2, true, false, null, [], {}] ")
  = Some (VArr [VNum 1 0; VNum (-250) (-2); VNum 3 2; VBool true;
                VBool false; VNull; VArr []; VObj []]).
Proof. vm_compute. reflexivity. Qed.

Example parse_escapes :
  Json.parse (dq ++ [92; 110; 92; 117; 48; 48; 52; 49; 92; 34] ++ dq)
  = Some (VStr [10; 65; 34]).
Proof. vm_compute. reflexivity. Qed.

Example parse_duplicate_key :
  Json.parse (object [member "a" (lit "1"); member "b" (lit "2");
                      member "a" (lit "3")])
  = Some (VObj [(lit "a", VNum 3 0); (lit "b", VNum 2 0)]).
Proof. vm_compute. reflexivity. Qed.

Example parse_rejects :
  List.map Json.parse
    [ []; lit "Sure"; lit "[1,]"; lit "01"; lit "1 2"; lit "{}{}";
      lit "{a:1}"; lit "'a'"; lit "[1"; lit "1."; lit "-"; lit "nul";
      lit "True"; dq ++ lit "a"; dq ++ [9] ++ dq; lit "{" ++ quoted "a" ++ lit "}" ]
  = List.repeat None 16.
Proof. vm_compute. reflexivity. Qed.

Example score_in_range :
  List.map (fun n => Contract.integer_0_100 (fst n) (snd n))
    [ (85, 0); (0, 7); (1, 2); (850, -1); (150, 0); (1, 3); (5, -1); (-5, 0) ]%Z
  = [ true; true; true; true; false; false; false; false ].
Proof. reflexivity. Qed.

Example scenario_A_conforms : Contract.conforms value_A = true.
Proof. vm_compute. reflexivity. Qed.

(** A resume of 7000 code units reaches the model cut to 6000. *)
Example long_resume_is_cut :
  remote_calls
    (handler (request (VStr (List.repeat 97 (Z.to_nat 7000))) (VStr jd42)))
  = [create_request (List.repeat 97 (Z.to_nat 6000)) jd42].
Proof. vm_compute. reflexivity. Qed.

(** Nothing is required of the parsed value, not even the keys. *)
Example empty_object_succeeds :
  endpoint (Env None) good_request (fun _ => Normal (reply (lit "{}")))
  = Response 200 (success_body (VObj [])).
Proof. vm_compute. reflexivity. Qed.

(** A failure of the remote call goes to the error handler; the stack is
    shown in development mode only. *)
Example upstream_failure :
  let err := Error (Some 429%Z) (lit "Rate limit reached") (lit "Error: ...") in
  endpoint (Env (Some (lit "production"))) good_request (fun _ => Throw err)
  = Response 429%Z (error_body (lit "Rate limit reached"))
  /\ endpoint (Env (Some (lit "development"))) good_request (fun _ => Throw err)
     = Response 429%Z (VObj [(lit "error", VStr (lit "Rate limit reached"));
                           (lit "stack", VStr (lit "Error: ..."))]).
Proof. split; vm_compute; reflexivity. Qed.

(** A completion without choices: the property chain throws, outside the
    inner [try]. *)
Example empty_choices :
  endpoint (Env None) good_request
    (fun _ => Normal (VObj [(lit "choices", VArr [])]))
  = Response 500
      (error_body
         (lit "Cannot read properties of undefined (reading 'message')")).
Proof. vm_compute. reflexivity. Qed.

(** A [null] content is caught by the inner [try]. *)
Example null_content :
  endpoint (Env None) good_request
    (fun _ => Normal
       (VObj [(lit "choices",
               VArr [VObj [(lit "message", VObj [(lit "content", VNull)])]])]))
  = unexpected_format.
Proof. vm_compute. reflexivity. Qed.

End Checks.

(* ================================================================== *)
(** ** The properties of the pipeline *)
(* ================================================================== *)

Import JsString Js Analyze Shape Samples.
Import StringFacts ReplaceFacts FenceFacts WrapFacts JsonFacts HandlerFacts.

Lemma success_body_variants (v : value) :
  success_variant (success_body v) = Contract.defined v
  /\ failure_variant (success_body v) = false.
Proof. split; [destruct v|]; reflexivity. Qed.

Lemma error_handler_variants (env : environment) (e : error) :
  success_variant (body (error_handler env e)) = false
  /\ failure_variant (body (error_handler env e)) = true.
Proof.
  unfold error_handler. cbn [body].
  destruct (NODE_ENV env) as [mode|];
    [destruct (eqb mode (lit "development"))|]; split; reflexivity.
Qed.

(** C1 (as amended).  No check of the parsed value exists: for a valid
    request and a raw model output whose cleaned text parses as JSON to a
    value with all eight required keys, the response is 200 with the body
    [{success: true, data}] holding the parsed value unchanged, whatever
    stands under the keys (a score outside 0..100, an unknown rating, array
    items that are not strings). *)
Theorem C1_parsed_value_returned_unchecked
    (env : environment) (req_body : value) (resume jobDescription : t)
    (remote : chat_request -> completion value) (c : value)
    (raw : t) (v : value) :
  resume_field req_body = Normal (VStr resume) ->
  jobDescription_field req_body = Normal (VStr jobDescription) ->
  (50 <= length (trim resume))%Z ->
  (30 <= length (trim jobDescription))%Z ->
  answers remote (handler req_body) (Normal c) ->
  raw_content c = Normal (VStr raw) ->
  Json.parse (cleaned raw) = Some v ->
  Contract.has_required_keys v = true ->
  endpoint env req_body remote
  = Response 200 (VObj [(lit "success", VBool true); (lit "data", v)]).
Proof.
  intros Hr Hj Lr Lj Hans Hraw Hparse _.
  rewrite (endpoint_valid req_body resume jobDescription Hr Hj env remote
             (Normal c) Lr Lj Hans).
  cbn [after_completion]. rewrite Hraw. cbn [settle].
  apply parse_response_some, Hparse.
Qed.

Lemma C1_parsed_value_returned_unchecked_witness :
  endpoint (Env None) good_request (fun _ => Normal (reply fenced_A))
  = Response 200 (VObj [(lit "success", VBool true); (lit "data", value_A)]).
Proof.
  apply (C1_parsed_value_returned_unchecked (Env None) good_request
           resume60 jd42 (fun _ => Normal (reply fenced_A))
           (reply fenced_A) fenced_A value_A).
  - reflexivity.
  - reflexivity.
  - now vm_compute.
  - now vm_compute.
  - intros req _. reflexivity.
  - reflexivity.
  - vm_compute. reflexivity.
  - vm_compute. reflexivity.
Defined.

(** C1, the claim as stated fails: a model output that parses, carries a
    score of 150, an unknown rating and a number among the strengths, and
    so violates the contract, comes back in a success envelope. *)
Lemma C1_off_contract_value_in_success_envelope :
  Json.parse (cleaned payload_off_contract) = Some value_off_contract
  /\ Contract.conforms value_off_contract = false
  /\ endpoint (Env None) good_request
       (fun _ => Normal (reply payload_off_contract))
     = Response 200 (success_body value_off_contract)
  /\ success_variant (success_body value_off_contract) = true.
Proof. vm_compute. repeat split; reflexivity. Qed.

(** C2, the code at a failing input: a resume that is a number passes the
    falsy check, its [trim] call throws, and the global error handler
    answers 500 with the message of the TypeError, not a validation error.
    No remote call is made. *)
Theorem C2_number_resume_is_server_fault
    (jd : value) (remote : chat_request -> completion value) :
  endpoint (Env None) (request (VNum 12345 0) jd) remote
  = Response 500
      (VObj [(lit "error", VStr (lit "resume.trim is not a function"))])
  /\ remote_calls (handler (request (VNum 12345 0) jd)) = [].
Proof. split; reflexivity. Qed.

(** C3 (as amended).  The two replacements remove every fence marker,
    wherever it stands: they leave a text unchanged exactly when it holds
    no triple backtick.  Whatever a text holds, wrapped in fence markers
    (the opening one possibly tagged json, white space allowed behind the
    opening fence and around the closing one) its cleaned text, and hence
    its parse, is that of the text unwrapped, provided an untagged opening
    fence does not form a tagged one with what follows it (as in three
    backticks right in front of a text that begins with json). *)
Theorem C3_fence_stripping (inner : t) :
  (strip_fences inner = inner <-> free fence inner = true)
  /\ forall tag w1 w2 w3,
       fence_tag tag = true ->
       (tag = [] -> untagged_opening (w1 ++ inner) = true) ->
       all_space w1 = true ->
       all_space w2 = true ->
       all_space w3 = true ->
       cleaned (wrapped tag w1 inner w2 w3) = cleaned inner
       /\ Json.parse (cleaned (wrapped tag w1 inner w2 w3))
          = Json.parse (cleaned inner).
Proof.
  split.
  - split; [|apply strip_fences_free].
    intros E. rewrite <- E. apply strip_fences_no_fence.
  - intros tag w1 w2 w3 Htag Hstart H1 H2 H3.
    assert (E : cleaned (wrapped tag w1 inner w2 w3) = cleaned inner)
      by (apply cleaned_wrapped; assumption).
    split; [exact E | rewrite E; reflexivity].
Qed.

Lemma C3_fence_stripping_witness :
  strip_fences payload_A = payload_A
  /\ cleaned (wrapped (lit "json") nl payload_A nl []) = cleaned payload_A
  /\ cleaned (wrapped [] [] payload_backticks [] [])
     = cleaned payload_backticks.
Proof.
  destruct (C3_fence_stripping payload_A) as [[_ H1] H2].
  destruct (C3_fence_stripping payload_backticks) as [_ H3].
  split; [|split].
  - apply H1. vm_compute. reflexivity.
  - apply (H2 (lit "json") nl nl []); reflexivity.
  - apply (H3 [] [] [] []); reflexivity.
Defined.

(** C3, the claim as stated fails: a JSON text with no fence around it but
    a triple backtick inside a string is changed by the stripping step, and
    the value parsed from the cleaned text is not the one the text
    denotes. *)
Lemma C3_inner_backticks_removed :
  no_surrounding_fence payload_backticks = true
  /\ strip_fences payload_backticks <> payload_backticks
  /\ Json.parse payload_backticks
     = Some (VObj [(lit "summary", VStr (lit "a```b"))])
  /\ Json.parse (cleaned payload_backticks)
     = Some (VObj [(lit "summary", VStr (lit "ab"))]).
Proof.
  split; [reflexivity|]. split; [|split; vm_compute; reflexivity].
  vm_compute. discriminate.
Qed.

(** C4.  When both fields are strings and the trimmed resume is shorter
    than 50 characters or the trimmed job description shorter than 30, the
    response is a 400 with an error body and no remote call is made; a
    short resume, in particular one of 10 characters, gets exactly
    [{error: "Resume must be at least 50 characters."}]. *)
Theorem C4_too_short_is_rejected
    (env : environment) (req_body : value) (resume jobDescription : t)
    (remote : chat_request -> completion value) :
  resume_field req_body = Normal (VStr resume) ->
  jobDescription_field req_body = Normal (VStr jobDescription) ->
  (length (trim resume) < 50)%Z \/ (length (trim jobDescription) < 30)%Z ->
  remote_calls (handler req_body) = []
  /\ status (endpoint env req_body remote) = 400%Z
  /\ (exists msg,
        body (endpoint env req_body remote) = VObj [(lit "error", VStr msg)])
  /\ ((length (trim resume) < 50)%Z ->
      endpoint env req_body remote
      = Response 400
          (VObj [(lit "error",
                  VStr (lit "Resume must be at least 50 characters."))]))
  /\ (length resume = 10%Z ->
      endpoint env req_body remote
      = Response 400
          (VObj [(lit "error",
                  VStr (lit "Resume must be at least 50 characters."))])).
Proof.
  intros Hr Hj Hshort.
  assert (Hres : (length (trim resume) < 50)%Z ->
                 handler req_body = Finished (Sent resume_too_short))
    by (apply (handler_short_resume req_body resume _ Hr Hj)).
  assert (Hcases : handler req_body = Finished (Sent resume_too_short)
                   \/ handler req_body = Finished (Sent jd_too_short)).
  { destruct (Z.lt_ge_cases (length (trim resume)) 50) as [L|L];
      [left; auto|right].
    destruct Hshort as [L'|L']; [lia|].
    apply (handler_short_jd req_body resume jobDescription Hr Hj L L'). }
  unfold endpoint. repeat split.
  - destruct Hcases as [-> | ->]; reflexivity.
  - destruct Hcases as [-> | ->]; reflexivity.
  - destruct Hcases as [-> | ->]; eexists; reflexivity.
  - intros L. rewrite (Hres L). reflexivity.
  - intros L. pose proof (trim_length resume).
    rewrite Hres by lia. reflexivity.
Qed.

Lemma C4_too_short_is_rejected_witness :
  remote_calls (handler (request (VStr resume10) (VStr jd42))) = []
  /\ endpoint (Env None) (request (VStr resume10) (VStr jd42))
       (fun _ => Normal (reply fenced_A))
     = Response 400
         (VObj [(lit "error",
                 VStr (lit "Resume must be at least 50 characters."))]).
Proof.
  destruct (C4_too_short_is_rejected (Env None)
              (request (VStr resume10) (VStr jd42)) resume10 jd42
              (fun _ => Normal (reply fenced_A)))
    as (H1 & _ & _ & _ & H5).
  - reflexivity.
  - reflexivity.
  - left. now vm_compute.
  - split; [exact H1|]. apply H5. reflexivity.
Defined.

Lemma user_content_layout (safeResume safeJD : t) :
  user_content safeResume safeJD
  = lit "Analyze this resume against the job description." ++ nl ++ nl
    ++ lit "=== RESUME ===" ++ nl ++ safeResume ++ nl ++ nl
    ++ lit "=== JOB DESCRIPTION ===" ++ nl ++ safeJD ++ nl ++ nl
    ++ lit "Return ONLY the JSON object.".
Proof. reflexivity. Qed.

Lemma user_content_length (safeResume safeJD : t) :
  length (user_content safeResume safeJD)
  = (121 + length safeResume + length safeJD)%Z.
Proof.
  rewrite user_content_layout. unfold length.
  repeat rewrite length_app. simpl List.length. lia.
Qed.

(** C5.  For a valid request, the messages of the one remote call are a
    system message and the user message whose text embeds, under the two
    headers, exactly the first 6000 code units of the trimmed resume (all
    of it when it is no longer) and the first 3000 of the trimmed job
    description; the contents of the two messages together are 631 fixed
    code units longer than the two capped texts, so the prompt never holds
    more than the capped prefixes. *)
Theorem C5_truncation_is_exact
    (req_body : value) (resume jobDescription : t) :
  resume_field req_body = Normal (VStr resume) ->
  jobDescription_field req_body = Normal (VStr jobDescription) ->
  (50 <= length (trim resume))%Z ->
  (30 <= length (trim jobDescription))%Z ->
  let safeResume := firstn (Z.to_nat 6000) (trim resume) in
  let safeJD := firstn (Z.to_nat 3000) (trim jobDescription) in
  exists req system,
    remote_calls (handler req_body) = [req]
    /\ messages req
       = [ (lit "system", system);
           (lit "user",
            lit "Analyze this resume against the job description."
            ++ nl ++ nl
            ++ lit "=== RESUME ===" ++ nl ++ safeResume ++ nl ++ nl
            ++ lit "=== JOB DESCRIPTION ===" ++ nl ++ safeJD ++ nl ++ nl
            ++ lit "Return ONLY the JSON object.") ]
    /\ length safeResume = Z.min 6000 (length (trim resume))
    /\ length safeJD = Z.min 3000 (length (trim jobDescription))
    /\ ((length (trim resume) <= 6000)%Z -> safeResume = trim resume)
    /\ ((length (trim jobDescription) <= 3000)%Z ->
        safeJD = trim jobDescription)
    /\ (exists rest, trim resume = safeResume ++ rest)
    /\ (exists rest, trim jobDescription = safeJD ++ rest)
    /\ fold_right (fun m n => (length (snd m) + n)%Z) 0%Z (messages req)
       = (631 + Z.min 6000 (length (trim resume))
          + Z.min 3000 (length (trim jobDescription)))%Z.
Proof.
  intros Hr Hj Lr Lj. cbv zeta.
  assert (Er : length (firstn (Z.to_nat 6000) (trim resume))
               = Z.min 6000 (length (trim resume)))
    by (rewrite <- substring_prefix by lia; apply substring_length; lia).
  assert (Ej : length (firstn (Z.to_nat 3000) (trim jobDescription))
               = Z.min 3000 (length (trim jobDescription)))
    by (rewrite <- substring_prefix by lia; apply substring_length; lia).
  rewrite (handler_valid req_body resume jobDescription Hr Hj Lr Lj).
  rewrite !substring_prefix by lia.
  exists (create_request (firstn (Z.to_nat 6000) (trim resume))
            (firstn (Z.to_nat 3000) (trim jobDescription))),
         system_content.
  split; [reflexivity|]. split; [reflexivity|].
  split; [exact Er|]. split; [exact Ej|].
  split; [intros L; unfold length in L; apply firstn_all2; lia|].
  split; [intros L; unfold length in L; apply firstn_all2; lia|].
  split; [eexists; symmetry; apply firstn_skipn|].
  split; [eexists; symmetry; apply firstn_skipn|].
  cbn [create_request messages fold_right snd].
  rewrite user_content_length, Er, Ej.
  change (length system_content) with 510%Z. lia.
Qed.

Lemma C5_truncation_is_exact_witness :
  let resume := List.repeat 97 (Z.to_nat 7000) in
  let safeResume := firstn (Z.to_nat 6000) (trim resume) in
  let safeJD := firstn (Z.to_nat 3000) (trim jd42) in
  exists req system,
    remote_calls (handler (request (VStr resume) (VStr jd42))) = [req]
    /\ messages req
       = [ (lit "system", system);
           (lit "user",
            lit "Analyze this resume against the job description."
            ++ nl ++ nl
            ++ lit "=== RESUME ===" ++ nl ++ safeResume ++ nl ++ nl
            ++ lit "=== JOB DESCRIPTION ===" ++ nl ++ safeJD ++ nl ++ nl
            ++ lit "Return ONLY the JSON object.") ]
    /\ length safeResume = Z.min 6000 (length (trim resume))
    /\ length safeJD = Z.min 3000 (length (trim jd42))
    /\ ((length (trim resume) <= 6000)%Z -> safeResume = trim resume)
    /\ ((length (trim jd42) <= 3000)%Z -> safeJD = trim jd42)
    /\ (exists rest, trim resume = safeResume ++ rest)
    /\ (exists rest, trim jd42 = safeJD ++ rest)
    /\ fold_right (fun m n => (length (snd m) + n)%Z) 0%Z (messages req)
       = (631 + Z.min 6000 (length (trim resume))
          + Z.min 3000 (length (trim jd42)))%Z.
Proof.
  apply (C5_truncation_is_exact
           (request (VStr (List.repeat 97 (Z.to_nat 7000))) (VStr jd42))
           (List.repeat 97 (Z.to_nat 7000)) jd42).
  - reflexivity.
  - reflexivity.
  - now vm_compute.
  - now vm_compute.
Defined.

(** C6.  For a valid request and a raw model output whose cleaned text
    does not parse as JSON, the response is 500 with the body
    [{error: "AI returned unexpected format. Please try again."}]. *)
Theorem C6_unparsable_output_is_server_fault
    (env : environment) (req_body : value) (resume jobDescription : t)
    (remote : chat_request -> completion value) (c : value) (raw : t) :
  resume_field req_body = Normal (VStr resume) ->
  jobDescription_field req_body = Normal (VStr jobDescription) ->
  (50 <= length (trim resume))%Z ->
  (30 <= length (trim jobDescription))%Z ->
  answers remote (handler req_body) (Normal c) ->
  raw_content c = Normal (VStr raw) ->
  Json.parse (cleaned raw) = None ->
  endpoint env req_body remote
  = Response 500
      (VObj [(lit "error",
              VStr (lit "AI returned unexpected format. Please try again."))]).
Proof.
  intros Hr Hj Lr Lj Hans Hraw Hparse.
  rewrite (endpoint_valid req_body resume jobDescription Hr Hj env remote
             (Normal c) Lr Lj Hans).
  cbn [after_completion]. rewrite Hraw. cbn [settle].
  apply parse_response_none, Hparse.
Qed.

Lemma C6_unparsable_output_is_server_fault_witness :
  endpoint (Env None) good_request (fun _ => Normal (reply prose))
  = Response 500
      (VObj [(lit "error",
              VStr (lit "AI returned unexpected format. Please try again."))]).
Proof.
  apply (C6_unparsable_output_is_server_fault (Env None) good_request
           resume60 jd42 (fun _ => Normal (reply prose)) (reply prose) prose).
  - reflexivity.
  - reflexivity.
  - now vm_compute.
  - now vm_compute.
  - intros req _. reflexivity.
  - reflexivity.
  - vm_compute. reflexivity.
Defined.

(** C7.  Whatever the environment, the request body and the behaviour of
    the remote model, the body of the response is of exactly one variant:
    [success: true] with [data] and no [error], or an [error] string with
    neither [success] nor [data]. *)
Theorem C7_exactly_one_variant
    (env : environment) (req_body : value)
    (remote : chat_request -> completion value) :
  let b := body (endpoint env req_body remote) in
  (success_variant b = true /\ failure_variant b = false)
  \/ (success_variant b = false /\ failure_variant b = true).
Proof.
  cbv zeta. unfold endpoint.
  destruct (handler_cases req_body) as [[e H]|[H|[H|[req H]]]];
    rewrite H; cbn [settle].
  - right. apply error_handler_variants.
  - right. split; reflexivity.
  - right. split; reflexivity.
  - destruct (remote req) as [c|e]; cbn [after_completion].
    2:{ right. apply error_handler_variants. }
    destruct (raw_content c) as [rawContent|e]; cbn [settle].
    2:{ right. apply error_handler_variants. }
    destruct rawContent as [| | | |raw| |]; cbn [parse_response];
      try (right; split; reflexivity).
    destruct (Json.parse (cleaned raw)) as [v|] eqn:E;
      [|right; split; reflexivity].
    left. cbn [body].
    destruct (success_body_variants v) as [-> ->].
    split; [exact (parse_defined _ _ E) | reflexivity].
Qed.

(** C8.  For a valid request, the second message of the remote call has
    the role user; its content puts the truncated resume under the line
    === RESUME ===, the truncated job description under the line
    === JOB DESCRIPTION ===, and ends with the instruction to return only
    the JSON object. *)
Theorem C8_user_message_layout
    (req_body : value) (resume jobDescription : t) :
  resume_field req_body = Normal (VStr resume) ->
  jobDescription_field req_body = Normal (VStr jobDescription) ->
  (50 <= length (trim resume))%Z ->
  (30 <= length (trim jobDescription))%Z ->
  exists req system,
    remote_calls (handler req_body) = [req]
    /\ messages req
       = [ system;
           (lit "user",
            lit "Analyze this resume against the job description."
            ++ nl ++ nl
            ++ lit "=== RESUME ===" ++ nl
            ++ substring 0 6000 (trim resume) ++ nl ++ nl
            ++ lit "=== JOB DESCRIPTION ===" ++ nl
            ++ substring 0 3000 (trim jobDescription) ++ nl ++ nl
            ++ lit "Return ONLY the JSON object.") ].
Proof.
  intros Hr Hj Lr Lj.
  rewrite (handler_valid req_body resume jobDescription Hr Hj Lr Lj).
  eexists. eexists. split; reflexivity.
Qed.

Lemma C8_user_message_layout_witness :
  exists req system,
    remote_calls (handler good_request) = [req]
    /\ messages req
       = [ system;
           (lit "user",
            lit "Analyze this resume against the job description."
            ++ nl ++ nl
            ++ lit "=== RESUME ===" ++ nl
            ++ substring 0 6000 (trim resume60) ++ nl ++ nl
            ++ lit "=== JOB DESCRIPTION ===" ++ nl
            ++ substring 0 3000 (trim jd42) ++ nl ++ nl
            ++ lit "Return ONLY the JSON object.") ].
Proof.
  apply (C8_user_message_layout good_request resume60 jd42).
  - reflexivity.
  - reflexivity.
  - now vm_compute.
  - now vm_compute.
Defined.

(** The prompt is a function of the two request fields alone: two
    requests that agree on [resume] and [jobDescription] lead to the same
    remote calls, message for message, and the system message of a call is
    the fixed instruction. *)
Lemma prompt_depends_on_two_fields (body1 body2 : value) :
  resume_field body1 = resume_field body2 ->
  jobDescription_field body1 = jobDescription_field body2 ->
  List.map messages (remote_calls (handler body1))
  = List.map messages (remote_calls (handler body2))
  /\ forall req, In req (remote_calls (handler body1)) ->
       exists user, messages req = [(lit "system", system_content);
                                    (lit "user", user)].
Proof.
  unfold resume_field, jobDescription_field. intros H1 H2. split.
  - unfold handler, handler_body. rewrite H1, H2. reflexivity.
  - intros req Hin.
    destruct (handler_cases body1) as [[e H]|[H|[H|[req' H]]]];
      rewrite H in Hin; try contradiction.
    revert H Hin. unfold handler, handler_body.
    destruct (destructure body1 "resume" "req.body") as [r|e];
      [|discriminate].
    destruct (destructure body1 "jobDescription" "req.body") as [j|e];
      [|discriminate].
    cbn [bind].
    destruct (too_short r "resume" 50) as [[|]|e]; try discriminate.
    cbn [bind].
    destruct (too_short j "jobDescription" 30) as [[|]|e]; try discriminate.
    cbn [bind].
    destruct (call_trim r "resume") as [tr|e]; [|discriminate].
    destruct (call_trim j "jobDescription") as [tj|e]; [|discriminate].
    cbn [bind]. intros [= <-] [<-|[]]. eexists. reflexivity.
Qed.

(** C10.  The resume check comes first: when the trimmed resume is shorter
    than 50 characters and the trimmed job description shorter than 30, the
    response is the resume error; and it is the same for any other request
    with that resume, whatever stands in [jobDescription], so the second
    check is not reached. *)
Theorem C10_resume_checked_first
    (env : environment) (req_body : value) (resume jobDescription : t)
    (remote : chat_request -> completion value) :
  resume_field req_body = Normal (VStr resume) ->
  jobDescription_field req_body = Normal (VStr jobDescription) ->
  (length (trim resume) < 50)%Z ->
  (length (trim jobDescription) < 30)%Z ->
  endpoint env req_body remote
  = Response 400
      (VObj [(lit "error", VStr (lit "Resume must be at least 50 characters."))])
  /\ forall other jd,
       resume_field other = Normal (VStr resume) ->
       jobDescription_field other = Normal jd ->
       endpoint env other remote = endpoint env req_body remote.
Proof.
  intros Hr Hj Lr _.
  assert (E : forall other jd,
             resume_field other = Normal (VStr resume) ->
             jobDescription_field other = Normal jd ->
             endpoint env other remote = Response 400
               (VObj [(lit "error",
                       VStr (lit "Resume must be at least 50 characters."))])).
  { intros other jd Ho Hjd. unfold endpoint.
    rewrite (handler_short_resume other resume jd Ho Hjd Lr). reflexivity. }
  split; [exact (E req_body _ Hr Hj)|].
  intros other jd Ho Hjd.
  rewrite (E other jd Ho Hjd), (E req_body _ Hr Hj). reflexivity.
Qed.

Lemma C10_resume_checked_first_witness :
  endpoint (Env None) (request (VStr resume10) (VStr (lit "Rocq job")))
    (fun _ => Normal (reply fenced_A))
  = Response 400
      (VObj [(lit "error", VStr (lit "Resume must be at least 50 characters."))]).
Proof.
  apply (C10_resume_checked_first (Env None)
           (request (VStr resume10) (VStr (lit "Rocq job")))
           resume10 (lit "Rocq job") (fun _ => Normal (reply fenced_A))).
  - reflexivity.
  - reflexivity.
  - now vm_compute.
  - now vm_compute.
Defined.

(* ================================================================== *)
(** ** Further properties of the handler and the error handler *)
(* ================================================================== *)

Lemma eqb_eq (a b : t) : eqb a b = true <-> a = b.
Proof.
  revert b. induction a as [|x a IH]; intros [|y b]; simpl;
    try (split; [discriminate | discriminate]); [tauto|].
  rewrite andb_true_iff, N.eqb_eq, IH. split.
  - intros [-> ->]. reflexivity.
  - intros [= -> ->]. auto.
Qed.

Lemma eqb_refl (a : t) : eqb a a = true.
Proof. apply eqb_eq. reflexivity. Qed.

(** The handler on a request whose two fields are strings. *)
Lemma handler_of_strings (req_body : value) (resume jobDescription : t) :
  resume_field req_body = Normal (VStr resume) ->
  jobDescription_field req_body = Normal (VStr jobDescription) ->
  handler req_body =
  if (length (trim resume) <? 50)%Z then Finished (Sent resume_too_short)
  else if (length (trim jobDescription) <? 30)%Z
       then Finished (Sent jd_too_short)
       else Await (create_request (substring 0 6000 (trim resume))
                     (substring 0 3000 (trim jobDescription)))
                  after_completion.
Proof.
  intros Hr Hj.
  destruct (Z.ltb_spec (length (trim resume)) 50) as [L|L].
  - apply (handler_short_resume req_body resume _ Hr Hj L).
  - destruct (Z.ltb_spec (length (trim jobDescription)) 30) as [L'|L'].
    + apply (handler_short_jd req_body resume jobDescription Hr Hj L L').
    + apply (handler_valid req_body resume jobDescription Hr Hj L L').
Qed.

(** X1.  The remote model is called exactly for the requests whose two
    fields are strings of at least 50 and 30 code units after trimming. *)
Theorem remote_called_iff_valid (req_body : value) :
  remote_calls (handler req_body) <> [] <->
  exists resume jobDescription,
    resume_field req_body = Normal (VStr resume)
    /\ jobDescription_field req_body = Normal (VStr jobDescription)
    /\ (50 <= length (trim resume))%Z
    /\ (30 <= length (trim jobDescription))%Z.
Proof.
  split.
  - intros Hcall.
    destruct (resume_field req_body) as [[| | | |r| |]|e] eqn:Hr;
      try (exfalso; apply Hcall, no_call_without_strings; left;
           intros s; rewrite Hr; discriminate).
    destruct (jobDescription_field req_body) as [[| | | |j| |]|e] eqn:Hj;
      try (exfalso; apply Hcall, no_call_without_strings; right;
           intros s; rewrite Hj; discriminate).
    exists r, j. repeat split; trivial.
    + destruct (Z.lt_ge_cases (length (trim r)) 50) as [L|L]; [|exact L].
      exfalso. apply Hcall.
      rewrite (handler_short_resume req_body r _ Hr Hj L). reflexivity.
    + destruct (Z.lt_ge_cases (length (trim r)) 50) as [L|L].
      * exfalso. apply Hcall.
        rewrite (handler_short_resume req_body r _ Hr Hj L). reflexivity.
      * destruct (Z.lt_ge_cases (length (trim j)) 30) as [L'|L']; [|exact L'].
        exfalso. apply Hcall.
        rewrite (handler_short_jd req_body r j Hr Hj L L'). reflexivity.
  - intros (r & j & Hr & Hj & L & L').
    rewrite (handler_valid req_body r j Hr Hj L L'). discriminate.
Qed.

(** X2.  A resume that is absent, [null], [false], zero or the empty
    string gets the resume error with status 400, whatever the job
    description is, and no remote call is made. *)
Theorem falsy_resume_is_rejected
    (env : environment) (req_body : value) (resume jd : value)
    (remote : chat_request -> completion value) :
  resume_field req_body = Normal resume ->
  jobDescription_field req_body = Normal jd ->
  truthy resume = false ->
  endpoint env req_body remote
  = Response 400
      (VObj [(lit "error", VStr (lit "Resume must be at least 50 characters."))])
  /\ remote_calls (handler req_body) = [].
Proof.
  intros Hr Hj Hf. unfold endpoint.
  rewrite (handler_falsy_resume req_body resume jd Hr Hj Hf).
  split; reflexivity.
Qed.

Lemma falsy_resume_is_rejected_witness :
  endpoint (Env None) (VObj [(lit "jobDescription", VStr jd42)])
    (fun _ => Normal (reply fenced_A))
  = Response 400
      (VObj [(lit "error", VStr (lit "Resume must be at least 50 characters."))])
  /\ remote_calls (handler (VObj [(lit "jobDescription", VStr jd42)])) = [].
Proof.
  apply (falsy_resume_is_rejected (Env None)
           (VObj [(lit "jobDescription", VStr jd42)]) VUndefined (VStr jd42)).
  - reflexivity.
  - reflexivity.
  - reflexivity.
Defined.

(** X3.  With a resume that passes its check, a job description that is
    absent, [null], [false], zero or the empty string gets the job
    description error with status 400, and no remote call is made. *)
Theorem falsy_jobDescription_is_rejected
    (env : environment) (req_body : value) (resume : t) (jd : value)
    (remote : chat_request -> completion value) :
  resume_field req_body = Normal (VStr resume) ->
  jobDescription_field req_body = Normal jd ->
  (50 <= length (trim resume))%Z ->
  truthy jd = false ->
  endpoint env req_body remote
  = Response 400
      (VObj [(lit "error",
              VStr (lit "Job description must be at least 30 characters."))])
  /\ remote_calls (handler req_body) = [].
Proof.
  intros Hr Hj L Hf. unfold resume_field, jobDescription_field in *.
  unfold endpoint, handler, handler_body. rewrite Hr, Hj. cbn [bind].
  rewrite too_short_string by lia. cbn [bind].
  apply Z.ltb_ge in L. rewrite L.
  unfold too_short. rewrite Hf. split; reflexivity.
Qed.

Lemma falsy_jobDescription_is_rejected_witness :
  endpoint (Env None) (request (VStr resume60) VNull)
    (fun _ => Normal (reply fenced_A))
  = Response 400
      (VObj [(lit "error",
              VStr (lit "Job description must be at least 30 characters."))])
  /\ remote_calls (handler (request (VStr resume60) VNull)) = [].
Proof.
  apply (falsy_jobDescription_is_rejected (Env None)
           (request (VStr resume60) VNull) resume60 VNull).
  - reflexivity.
  - reflexivity.
  - now vm_compute.
  - reflexivity.
Defined.

(** X4.  A resume that is truthy but not a string (a number whose double
    is not zero, [true], an array, an object) makes [trim] throw: the request ends at
    the global error handler with status 500 and the message of the
    TypeError, and no remote call is made. *)
Theorem truthy_non_string_resume_throws
    (env : environment) (req_body : value) (resume jd : value)
    (remote : chat_request -> completion value) :
  resume_field req_body = Normal resume ->
  jobDescription_field req_body = Normal jd ->
  truthy resume = true ->
  (forall s, resume <> VStr s) ->
  status (endpoint env req_body remote) = 500%Z
  /\ field "error" (body (endpoint env req_body remote))
     = VStr (lit "resume.trim is not a function")
  /\ remote_calls (handler req_body) = [].
Proof.
  intros Hr Hj Ht Hns. unfold resume_field, jobDescription_field in *.
  unfold endpoint, handler, handler_body. rewrite Hr, Hj. cbn [bind].
  unfold too_short. rewrite Ht. cbn [negb].
  destruct resume as [| | b|m e|s|items|props]; try discriminate;
    try (exfalso; apply (Hns s); reflexivity);
    repeat split; reflexivity.
Qed.

Lemma truthy_non_string_resume_throws_witness :
  status (endpoint (Env None) (request (VArr [VStr resume60]) (VStr jd42))
            (fun _ => Normal (reply fenced_A))) = 500%Z.
Proof.
  apply (truthy_non_string_resume_throws (Env None)
           (request (VArr [VStr resume60]) (VStr jd42))
           (VArr [VStr resume60]) (VStr jd42)).
  - reflexivity.
  - reflexivity.
  - reflexivity.
  - discriminate.
Defined.

(** The errors raised by the engine carry no status code. *)
Lemma destructure_throw (v : value) (name what : string) (e : error) :
  destructure v name what = Throw e -> statusCode e = None.
Proof. destruct v; simpl; intros H; inversion H; reflexivity. Qed.

Lemma call_trim_throw (v : value) (what : string) (e : error) :
  call_trim v what = Throw e -> statusCode e = None.
Proof. destruct v; simpl; intros H; inversion H; reflexivity. Qed.

Lemma get_field_throw (v : value) (name : string) (e : error) :
  get_field v name = Throw e -> statusCode e = None.
Proof. destruct v; simpl; intros H; inversion H; reflexivity. Qed.

Lemma get_first_throw (v : value) (e : error) :
  get_first v = Throw e -> statusCode e = None.
Proof. destruct v; simpl; intros H; inversion H; reflexivity. Qed.

Lemma too_short_throw (v : value) (what : string) (min : Z) (e : error) :
  too_short v what min = Throw e -> statusCode e = None.
Proof.
  unfold too_short. destruct (negb (truthy v)); [discriminate|].
  destruct (call_trim v what) as [s|e'] eqn:E; cbn [bind]; [discriminate|].
  intros [= <-]. exact (call_trim_throw _ _ _ E).
Qed.

Lemma raw_content_throw (c : value) (e : error) :
  raw_content c = Throw e -> statusCode e = None.
Proof.
  unfold raw_content.
  destruct (get_field c "choices") as [choices|e1] eqn:E1; cbn [bind];
    [|intros [= <-]; exact (get_field_throw _ _ _ E1)].
  destruct (get_first choices) as [first|e2] eqn:E2; cbn [bind];
    [|intros [= <-]; exact (get_first_throw _ _ E2)].
  destruct (get_field first "message") as [msg|e3] eqn:E3; cbn [bind];
    [|intros [= <-]; exact (get_field_throw _ _ _ E3)].
  apply get_field_throw.
Qed.

Lemma handler_throw (req_body : value) (e : error) :
  handler req_body = Finished (Next e) -> statusCode e = None.
Proof.
  unfold handler, handler_body.
  destruct (destructure req_body "resume" "req.body") as [r|e1] eqn:E1;
    cbn [bind]; [|intros [= <-]; exact (destructure_throw _ _ _ _ E1)].
  destruct (destructure req_body "jobDescription" "req.body") as [j|e2] eqn:E2;
    cbn [bind]; [|intros [= <-]; exact (destructure_throw _ _ _ _ E2)].
  destruct (too_short r "resume" 50) as [[|]|e3] eqn:E3; cbn [bind];
    [discriminate| |intros [= <-]; exact (too_short_throw _ _ _ _ E3)].
  destruct (too_short j "jobDescription" 30) as [[|]|e4] eqn:E4; cbn [bind];
    [discriminate| |intros [= <-]; exact (too_short_throw _ _ _ _ E4)].
  destruct (call_trim r "resume") as [tr|e5] eqn:E5; cbn [bind];
    [|intros [= <-]; exact (call_trim_throw _ _ _ E5)].
  destruct (call_trim j "jobDescription") as [tj|e6] eqn:E6; cbn [bind];
    [discriminate|intros [= <-]; exact (call_trim_throw _ _ _ E6)].
Qed.

(** Every way a request can end. *)
Lemma endpoint_cases (env : environment) (req_body : value)
    (remote : chat_request -> completion value) :
  (exists e, endpoint env req_body remote = error_handler env e
             /\ (statusCode e = None \/ exists req, remote req = Throw e))
  \/ endpoint env req_body remote = resume_too_short
  \/ endpoint env req_body remote = jd_too_short
  \/ endpoint env req_body remote = unexpected_format
  \/ exists req c raw v,
       remote_calls (handler req_body) = [req]
       /\ remote req = Normal c
       /\ raw_content c = Normal (VStr raw)
       /\ Json.parse (cleaned raw) = Some v
       /\ endpoint env req_body remote = Response 200 (success_body v).
Proof.
  unfold endpoint.
  destruct (handler_cases req_body) as [[e H]|[H|[H|[req H]]]].
  - left. exists e. rewrite H. split; [reflexivity|].
    left. exact (handler_throw _ _ H).
  - rewrite H. right; left. reflexivity.
  - rewrite H. right; right; left. reflexivity.
  - rewrite H. cbn [remote_calls].
    destruct (remote req) as [c|e] eqn:Hc; cbn [after_completion settle].
    2:{ left. exists e. split; [reflexivity|]. right. exists req. exact Hc. }
    destruct (raw_content c) as [rawContent|e] eqn:Hraw; cbn [settle].
    2:{ left. exists e. split; [reflexivity|].
        left. exact (raw_content_throw _ _ Hraw). }
    destruct rawContent as [| | | |raw| |]; cbn [parse_response];
      try (right; right; right; left; reflexivity).
    destruct (Json.parse (cleaned raw)) as [v|] eqn:E;
      [|right; right; right; left; reflexivity].
    right; right; right; right. exists req, c, raw, v. auto.
Qed.

(** X5.  A success body is sent only with status 200, only after the
    remote model was called once and answered with a string, and its
    [data] is the value parsed from the cleaned text of that string. *)
Theorem success_only_from_parsed_output
    (env : environment) (req_body : value)
    (remote : chat_request -> completion value) :
  success_variant (body (endpoint env req_body remote)) = true ->
  exists req c raw v,
    remote_calls (handler req_body) = [req]
    /\ remote req = Normal c
    /\ raw_content c = Normal (VStr raw)
    /\ Json.parse (cleaned raw) = Some v
    /\ endpoint env req_body remote
       = Response 200 (VObj [(lit "success", VBool true); (lit "data", v)]).
Proof.
  intros Hs.
  destruct (endpoint_cases env req_body remote)
    as [(e & H & _)|[H|[H|[H|H]]]]; [| | | |exact H];
    rewrite H in Hs; exfalso.
  - destruct (error_handler_variants env e) as [E _]. congruence.
  - discriminate.
  - discriminate.
  - discriminate.
Qed.

Lemma success_only_from_parsed_output_witness :
  exists req c raw v,
    remote_calls (handler good_request) = [req]
    /\ (fun _ => Normal (reply fenced_A)) req = Normal c
    /\ raw_content c = Normal (VStr raw)
    /\ Json.parse (cleaned raw) = Some v
    /\ endpoint (Env None) good_request (fun _ => Normal (reply fenced_A))
       = Response 200 (VObj [(lit "success", VBool true); (lit "data", v)]).
Proof.
  apply (success_only_from_parsed_output (Env None) good_request
           (fun _ => Normal (reply fenced_A))).
  vm_compute. reflexivity.
Defined.

(** X6.  When the remote call fails, the error goes to the global error
    handler as it is: the response is the one the handler builds from the
    status code and the message of that error. *)
Theorem upstream_error_is_surfaced
    (env : environment) (req_body : value) (resume jobDescription : t)
    (remote : chat_request -> completion value) (e : error) :
  resume_field req_body = Normal (VStr resume) ->
  jobDescription_field req_body = Normal (VStr jobDescription) ->
  (50 <= length (trim resume))%Z ->
  (30 <= length (trim jobDescription))%Z ->
  answers remote (handler req_body) (Throw e) ->
  endpoint env req_body remote = error_handler env e.
Proof.
  intros Hr Hj Lr Lj Hans.
  rewrite (endpoint_valid req_body resume jobDescription Hr Hj env remote
             (Throw e) Lr Lj Hans).
  reflexivity.
Qed.

Lemma upstream_error_is_surfaced_witness :
  endpoint (Env None) good_request
    (fun _ => Throw (Error (Some 429%Z) (lit "Rate limit reached") []))
  = error_handler (Env None) (Error (Some 429%Z) (lit "Rate limit reached") []).
Proof.
  apply (upstream_error_is_surfaced (Env None) good_request resume60 jd42).
  - reflexivity.
  - reflexivity.
  - now vm_compute.
  - now vm_compute.
  - intros req _. reflexivity.
Defined.

(** X7.  A completion whose content is not a string ([null], a number, an
    object, or no content at all) is answered like unparsable text: the
    inner catch sends 500 with the unexpected-format message. *)
Theorem non_string_content_is_format_error
    (env : environment) (req_body : value) (resume jobDescription : t)
    (remote : chat_request -> completion value) (c content : value) :
  resume_field req_body = Normal (VStr resume) ->
  jobDescription_field req_body = Normal (VStr jobDescription) ->
  (50 <= length (trim resume))%Z ->
  (30 <= length (trim jobDescription))%Z ->
  answers remote (handler req_body) (Normal c) ->
  raw_content c = Normal content ->
  (forall s, content <> VStr s) ->
  endpoint env req_body remote
  = Response 500
      (VObj [(lit "error",
              VStr (lit "AI returned unexpected format. Please try again."))]).
Proof.
  intros Hr Hj Lr Lj Hans Hraw Hns.
  rewrite (endpoint_valid req_body resume jobDescription Hr Hj env remote
             (Normal c) Lr Lj Hans).
  cbn [after_completion]. rewrite Hraw. cbn [settle].
  destruct content; try reflexivity. exfalso. eapply Hns. reflexivity.
Qed.

Lemma non_string_content_is_format_error_witness :
  endpoint (Env None) good_request
    (fun _ => Normal
       (VObj [(lit "choices", VArr [VObj [(lit "message", VObj [])]])]))
  = Response 500
      (VObj [(lit "error",
              VStr (lit "AI returned unexpected format. Please try again."))]).
Proof.
  apply (non_string_content_is_format_error (Env None) good_request
           resume60 jd42 _
           (VObj [(lit "choices", VArr [VObj [(lit "message", VObj [])]])])
           VUndefined).
  - reflexivity.
  - reflexivity.
  - now vm_compute.
  - now vm_compute.
  - intros req _. reflexivity.
  - reflexivity.
  - discriminate.
Defined.

(** X8.  A completion object from which the content cannot be read (no
    [choices], an empty [choices], a choice without [message]) throws
    outside the inner [try]: the answer comes from the global error
    handler, with status 500, not the unexpected-format message. *)
Theorem unreadable_completion_goes_to_error_handler
    (env : environment) (req_body : value) (resume jobDescription : t)
    (remote : chat_request -> completion value) (c : value) (e : error) :
  resume_field req_body = Normal (VStr resume) ->
  jobDescription_field req_body = Normal (VStr jobDescription) ->
  (50 <= length (trim resume))%Z ->
  (30 <= length (trim jobDescription))%Z ->
  answers remote (handler req_body) (Normal c) ->
  raw_content c = Throw e ->
  endpoint env req_body remote = error_handler env e
  /\ status (endpoint env req_body remote) = 500%Z.
Proof.
  intros Hr Hj Lr Lj Hans Hraw.
  rewrite (endpoint_valid req_body resume jobDescription Hr Hj env remote
             (Normal c) Lr Lj Hans).
  cbn [after_completion]. rewrite Hraw. cbn [settle].
  split; [reflexivity|].
  cbn [error_handler status]. rewrite (raw_content_throw c e Hraw).
  reflexivity.
Qed.

Lemma unreadable_completion_goes_to_error_handler_witness :
  status (endpoint (Env None) good_request
            (fun _ => Normal (VObj [(lit "choices", VArr [])]))) = 500%Z.
Proof.
  apply (unreadable_completion_goes_to_error_handler (Env None) good_request
           resume60 jd42 _ (VObj [(lit "choices", VArr [])])
           (TypeError
              (lit "Cannot read properties of undefined (reading 'message')"))).
  - reflexivity.
  - reflexivity.
  - now vm_compute.
  - now vm_compute.
  - intros req _. reflexivity.
  - reflexivity.
Defined.

(* ================================================================== *)
(** ** Further properties of the cleaning step *)
(* ================================================================== *)

Lemma free_prefix (p : pattern) (a b : t) :
  free p (a ++ b) = true -> free p a = true.
Proof.
  induction a as [|x a IH]; [reflexivity|]. cbn [app free]. intros H.
  apply andb_true_iff in H as [H1 H2]. rewrite IH by exact H2.
  destruct (starts_with p (x :: a)) eqn:E; [|reflexivity].
  pose proof (starts_with_app p (x :: a) b E) as E'. cbn [app] in E'.
  rewrite E' in H1. discriminate.
Qed.

Lemma trimEnd_prefix (s : t) : exists suf, s = trimEnd s ++ suf.
Proof.
  destruct (trimStart_suffix (rev s)) as [pre E].
  exists (rev pre). unfold trimEnd. rewrite <- rev_app_distr, <- E.
  symmetry. apply rev_involutive.
Qed.

Lemma trimEnd_idem (s : t) : trimEnd (trimEnd s) = trimEnd s.
Proof.
  unfold trimEnd. rewrite rev_involutive, trimStart_idem. reflexivity.
Qed.

Lemma trimStart_trim (s : t) : trimStart (trim s) = trim s.
Proof.
  apply trimStart_fixed. unfold trim.
  destruct (trimEnd_prefix (trimStart s)) as [suf E].
  pose proof (trimStart_head s) as Hh.
  destruct (trimEnd (trimStart s)) as [|c r]; [exact I|].
  rewrite E in Hh. exact Hh.
Qed.

Lemma trim_idem (s : t) : trim (trim s) = trim s.
Proof.
  unfold trim at 1. rewrite trimStart_trim. unfold trim. apply trimEnd_idem.
Qed.

Lemma free_trim (p : pattern) (s : t) :
  free p s = true -> free p (trim s) = true.
Proof.
  intros H. unfold trim.
  destruct (trimStart_suffix s) as [pre E]. rewrite E in H.
  apply free_suffix in H.
  destruct (trimEnd_prefix (trimStart s)) as [suf E'].
  rewrite E' in H. exact (free_prefix _ _ _ H).
Qed.

(** X9.  Whatever the model wrote, the text handed to [JSON.parse] holds
    no triple backtick: the second replacement leaves none, and trimming
    adds none. *)
Theorem cleaned_has_no_fence (rawContent : t) :
  free fence (strip_fences rawContent) = true
  /\ free fence (cleaned rawContent) = true.
Proof.
  split; [|apply free_trim]; apply strip_fences_no_fence.
Qed.

(** X10.  Cleaning is idempotent: cleaning a cleaned text changes
    nothing. *)
Theorem cleaned_idempotent (rawContent : t) :
  cleaned (cleaned rawContent) = cleaned rawContent.
Proof.
  unfold cleaned at 1.
  rewrite strip_fences_free
    by (apply free_trim, strip_fences_no_fence).
  unfold cleaned. apply trim_idem.
Qed.

(** The cleaned text neither begins nor ends with white space. *)
Lemma cleaned_is_trimmed (rawContent : t) :
  trimStart (cleaned rawContent) = cleaned rawContent
  /\ trimEnd (cleaned rawContent) = cleaned rawContent.
Proof.
  unfold cleaned. split; [apply trimStart_trim|].
  unfold trim. apply trimEnd_idem.
Qed.

(* ================================================================== *)
(** ** What the prompt and the response depend on *)
(* ================================================================== *)

(** X11.  Text beyond the caps never reaches the model: two valid requests
    whose trimmed resumes agree on the first 6000 code units and whose
    trimmed job descriptions agree on the first 3000 lead to the same
    remote call. *)
Theorem prompt_ignores_text_beyond_caps
    (body1 body2 : value) (resume1 resume2 jd1 jd2 : t) :
  resume_field body1 = Normal (VStr resume1) ->
  jobDescription_field body1 = Normal (VStr jd1) ->
  resume_field body2 = Normal (VStr resume2) ->
  jobDescription_field body2 = Normal (VStr jd2) ->
  (50 <= length (trim resume1))%Z -> (30 <= length (trim jd1))%Z ->
  (50 <= length (trim resume2))%Z -> (30 <= length (trim jd2))%Z ->
  firstn (Z.to_nat 6000) (trim resume1) = firstn (Z.to_nat 6000) (trim resume2) ->
  firstn (Z.to_nat 3000) (trim jd1) = firstn (Z.to_nat 3000) (trim jd2) ->
  remote_calls (handler body1) = remote_calls (handler body2)
  /\ remote_calls (handler body1) <> [].
Proof.
  intros Hr1 Hj1 Hr2 Hj2 Lr1 Lj1 Lr2 Lj2 Er Ej.
  rewrite (handler_valid body1 resume1 jd1 Hr1 Hj1 Lr1 Lj1).
  rewrite (handler_valid body2 resume2 jd2 Hr2 Hj2 Lr2 Lj2).
  rewrite !substring_prefix by lia. rewrite Er, Ej.
  split; [reflexivity | discriminate].
Qed.

Lemma prompt_ignores_text_beyond_caps_witness :
  remote_calls
    (handler (request (VStr (List.repeat 97 (Z.to_nat 6000) ++ lit "one"))
                      (VStr jd42)))
  = remote_calls
      (handler (request (VStr (List.repeat 97 (Z.to_nat 6000) ++ lit "two"))
                        (VStr jd42))).
Proof.
  apply (prompt_ignores_text_beyond_caps
           (request (VStr (List.repeat 97 (Z.to_nat 6000) ++ lit "one"))
                    (VStr jd42))
           (request (VStr (List.repeat 97 (Z.to_nat 6000) ++ lit "two"))
                    (VStr jd42))
           (List.repeat 97 (Z.to_nat 6000) ++ lit "one")
           (List.repeat 97 (Z.to_nat 6000) ++ lit "two") jd42 jd42).
  - reflexivity.
  - reflexivity.
  - reflexivity.
  - reflexivity.
  - now vm_compute.
  - now vm_compute.
  - now vm_compute.
  - now vm_compute.
  - vm_compute. reflexivity.
  - reflexivity.
Defined.

(** X12.  White space around the two texts is irrelevant: requests whose
    string fields agree after trimming are handled alike, from the
    validation to the remote call and the treatment of its answer. *)
Theorem handler_depends_on_trimmed_text
    (body1 body2 : value) (resume1 resume2 jd1 jd2 : t) :
  resume_field body1 = Normal (VStr resume1) ->
  jobDescription_field body1 = Normal (VStr jd1) ->
  resume_field body2 = Normal (VStr resume2) ->
  jobDescription_field body2 = Normal (VStr jd2) ->
  trim resume1 = trim resume2 ->
  trim jd1 = trim jd2 ->
  handler body1 = handler body2.
Proof.
  intros Hr1 Hj1 Hr2 Hj2 Er Ej.
  rewrite (handler_of_strings body1 resume1 jd1 Hr1 Hj1).
  rewrite (handler_of_strings body2 resume2 jd2 Hr2 Hj2).
  rewrite Er, Ej. reflexivity.
Qed.

Lemma handler_depends_on_trimmed_text_witness :
  handler (request (VStr (nl ++ resume60 ++ lit "  ")) (VStr jd42))
  = handler good_request.
Proof.
  apply (handler_depends_on_trimmed_text
           (request (VStr (nl ++ resume60 ++ lit "  ")) (VStr jd42))
           good_request (nl ++ resume60 ++ lit "  ") resume60 jd42 jd42).
  - reflexivity.
  - reflexivity.
  - reflexivity.
  - reflexivity.
  - vm_compute. reflexivity.
  - reflexivity.
Defined.

Lemma error_handler_body (env : environment) (e : error) :
  exists m, m <> []
    /\ field "error" (body (error_handler env e)) = VStr m
    /\ (NODE_ENV env <> Some (lit "development") ->
        body (error_handler env e) = VObj [(lit "error", VStr m)]).
Proof.
  unfold error_handler. cbn [body].
  exists (match message e with [] => lit "Internal Server Error" | m => m end).
  split; [destruct (message e); discriminate|].
  split; [reflexivity|].
  intros Hdev. destruct (NODE_ENV env) as [mode|]; [|reflexivity].
  destruct (eqb mode (lit "development")) eqn:E; [|reflexivity].
  apply eqb_eq in E. subst mode. contradiction.
Qed.

(** X13.  Outside development mode no response carries a [stack]: a
    failure body is exactly [{error}] and a success body exactly
    [{success, data}]. *)
Theorem no_stack_outside_development
    (env : environment) (req_body : value)
    (remote : chat_request -> completion value) :
  NODE_ENV env <> Some (lit "development") ->
  has_key "stack" (body (endpoint env req_body remote)) = false
  /\ ((exists m, body (endpoint env req_body remote)
                 = VObj [(lit "error", VStr m)])
      \/ (exists v, body (endpoint env req_body remote)
                    = VObj [(lit "success", VBool true); (lit "data", v)])).
Proof.
  intros Hdev.
  destruct (endpoint_cases env req_body remote)
    as [(e & H & _)|[H|[H|[H|(req & c & raw & v & _ & _ & _ & _ & H)]]]];
    rewrite H.
  - destruct (error_handler_body env e) as (m & _ & _ & Hb).
    rewrite (Hb Hdev). split; [reflexivity|]. left. eexists. reflexivity.
  - split; [reflexivity|]. left. eexists. reflexivity.
  - split; [reflexivity|]. left. eexists. reflexivity.
  - split; [reflexivity|]. left. eexists. reflexivity.
  - split; [reflexivity|]. right. eexists. reflexivity.
Qed.

Lemma no_stack_outside_development_witness :
  has_key "stack"
    (body (endpoint (Env (Some (lit "production"))) (VObj [])
             (fun _ => Normal VNull))) = false.
Proof.
  apply (no_stack_outside_development (Env (Some (lit "production")))
           (VObj []) (fun _ => Normal VNull)).
  discriminate.
Defined.

(** X14.  The error string of a response is never empty: the validation
    and format messages are fixed texts, and an error without a message is
    reported as Internal Server Error. *)
Theorem error_string_is_never_empty
    (env : environment) (req_body : value)
    (remote : chat_request -> completion value) (m : t) :
  field "error" (body (endpoint env req_body remote)) = VStr m ->
  m <> [].
Proof.
  destruct (endpoint_cases env req_body remote)
    as [(e & H & _)|[H|[H|[H|(req & c & raw & v & _ & _ & _ & _ & H)]]]];
    rewrite H; intros Hm.
  - destruct (error_handler_body env e) as (m' & Hne & Hf & _).
    rewrite Hf in Hm. injection Hm as <-. exact Hne.
  - injection Hm as <-. discriminate.
  - injection Hm as <-. discriminate.
  - injection Hm as <-. discriminate.
  - discriminate.
Qed.

Lemma error_string_is_never_empty_witness :
  lit "Internal Server Error" <> [].
Proof.
  apply (error_string_is_never_empty (Env None) good_request
           (fun _ => Throw (Error None [] []))).
  reflexivity.
Defined.

(** X15.  When the errors of the remote call carry no status code, the
    status of a response is 200, 400 or 500, and it is 200 exactly for a
    success body. *)
Theorem status_matches_variant
    (env : environment) (req_body : value)
    (remote : chat_request -> completion value) :
  (forall req e, remote req = Throw e -> statusCode e = None) ->
  let r := endpoint env req_body remote in
  (status r = 200 \/ status r = 400 \/ status r = 500)%Z
  /\ (status r = 200%Z <-> success_variant (body r) = true).
Proof.
  intros Hremote. cbv zeta.
  destruct (endpoint_cases env req_body remote)
    as [(e & H & He)|[H|[H|[H|(req & c & raw & v & _ & _ & _ & Hp & H)]]]];
    rewrite H.
  - assert (Hs : statusCode e = None)
      by (destruct He as [He|[req He]]; [exact He | exact (Hremote _ _ He)]).
    destruct (error_handler_variants env e) as [E _]. rewrite E.
    cbn [error_handler status]. rewrite Hs.
    split; [right; right; reflexivity|]. split; discriminate.
  - split; [right; left; reflexivity|]. split; discriminate.
  - split; [right; left; reflexivity|]. split; discriminate.
  - split; [right; right; reflexivity|]. split; discriminate.
  - cbn [status body]. destruct (success_body_variants v) as [-> _].
    rewrite (parse_defined _ _ Hp). split; [left; reflexivity|]. tauto.
Qed.

Lemma status_matches_variant_witness :
  status (endpoint (Env None) good_request (fun _ => Normal (reply fenced_A)))
  = 200%Z
  <-> success_variant
        (body (endpoint (Env None) good_request
                 (fun _ => Normal (reply fenced_A)))) = true.
Proof.
  apply (status_matches_variant (Env None) good_request
           (fun _ => Normal (reply fenced_A))).
  intros req e H. discriminate H.
Defined.

(* ================================================================== *)
(** ** The browser side *)
(* ================================================================== *)

Import Frontend.

Lemma lookup_obj_put_same (k : t) (v : value) (props : list (t * value)) :
  lookup k (Json.obj_put k v props) = v.
Proof.
  induction props as [|[k' v'] rest IH]; simpl.
  - rewrite eqb_refl. reflexivity.
  - destruct (eqb k k') eqn:E; simpl; rewrite E; [reflexivity | exact IH].
Qed.

Lemma lookup_obj_put_other (k k0 : t) (v : value) (props : list (t * value)) :
  k <> k0 -> lookup k (Json.obj_put k0 v props) = lookup k props.
Proof.
  intros Hne. induction props as [|[k' v'] rest IH]; simpl.
  - destruct (eqb k k0) eqn:E; [apply eqb_eq in E; contradiction|reflexivity].
  - destruct (eqb k0 k') eqn:E0; simpl.
    + apply eqb_eq in E0. subst k'.
      destruct (eqb k k0) eqn:E; [apply eqb_eq in E; contradiction|reflexivity].
    + rewrite IH. reflexivity.
Qed.

Lemma normalized_message_truthy (err : list (t * value)) :
  truthy (normalized_message err) = true.
Proof.
  unfold normalized_message, or_else.
  repeat match goal with
         | |- context [if truthy ?x then _ else _] =>
             let E := fresh "E" in destruct (truthy x) eqn:E
         end; try assumption; reflexivity.
Qed.

Lemma opt_field_field (v : value) (k : string) : opt_field v k = field k v.
Proof. destruct v; reflexivity. Qed.

(** X16.  The interceptor always leaves a truthy [userMessage] on a
    rejected request, so the fallback text of [handleAnalyze] is never
    shown for an error that went through it. *)
Theorem userMessage_is_always_set (err : list (t * value)) :
  truthy (lookup (lit "userMessage") (on_rejected err)) = true
  /\ or_else (lookup (lit "userMessage") (on_rejected err))
             (VStr (lit "Failed to analyze. Please try again."))
     = normalized_message err.
Proof.
  unfold on_rejected. rewrite lookup_obj_put_same.
  pose proof (normalized_message_truthy err) as H.
  split; [exact H|]. unfold or_else at 1. rewrite H. reflexivity.
Qed.

(** X17.  The interceptor changes nothing else on the error: every
    property other than [userMessage] reads as before. *)
Theorem interceptor_keeps_other_properties
    (err : list (t * value)) (k : t) :
  k <> lit "userMessage" ->
  lookup k (on_rejected err) = lookup k err.
Proof. intros H. unfold on_rejected. apply lookup_obj_put_other, H. Qed.

Lemma interceptor_keeps_other_properties_witness :
  lookup (lit "response")
    (on_rejected [(lit "message", VStr (lit "Network Error"));
                  (lit "response", VObj [(lit "status", VNum 500 0)])])
  = VObj [(lit "status", VNum 500 0)].
Proof.
  apply (interceptor_keeps_other_properties
           [(lit "message", VStr (lit "Network Error"));
            (lit "response", VObj [(lit "status", VNum 500 0)])]
           (lit "response")).
  discriminate.
Defined.

Lemma client_check (s : t) (min : Z) :
  (0 < min)%Z -> client_too_short s min = (length (trim s) <? min)%Z.
Proof.
  intros Hmin. unfold client_too_short.
  destruct (trim s) as [|c r]; [|reflexivity].
  cbn. symmetry. apply Z.ltb_lt. exact Hmin.
Qed.

Lemma posted_cases (st : ui_state) :
  (posted st = []
   /\ ((length (trim (ui_resume st)) < 50)%Z
       \/ (length (trim (ui_jobDescription st)) < 30)%Z))
  \/ (posted st = [request_body (trim (ui_resume st))
                                (trim (ui_jobDescription st))]
      /\ client_too_short (ui_resume st) 50 = false
      /\ client_too_short (ui_jobDescription st) 30 = false
      /\ (50 <= length (trim (ui_resume st)))%Z
      /\ (30 <= length (trim (ui_jobDescription st)))%Z).
Proof.
  unfold posted.
  destruct (client_too_short (ui_resume st) 50) eqn:E1.
  - left. split; [reflexivity|]. left.
    rewrite client_check in E1 by lia. apply Z.ltb_lt, E1.
  - destruct (client_too_short (ui_jobDescription st) 30) eqn:E2.
    + left. split; [reflexivity|]. right.
      rewrite client_check in E2 by lia. apply Z.ltb_lt, E2.
    + right. rewrite client_check in E1, E2 by lia.
      repeat split; try reflexivity; apply Z.ltb_ge; assumption.
Qed.

(** X18.  Whatever the page posts passes the validation of the server:
    the handler goes on to the remote call, with the prompt built from the
    trimmed texts of the two input boxes. *)
Theorem posted_request_passes_server_validation
    (st : ui_state) (req_body : value) :
  In req_body (posted st) ->
  remote_calls (handler req_body)
  = [create_request (substring 0 6000 (trim (ui_resume st)))
                    (substring 0 3000 (trim (ui_jobDescription st)))].
Proof.
  intros Hin.
  destruct (posted_cases st) as [[E _]|(E & _ & _ & Lr & Lj)];
    rewrite E in Hin; [contradiction|].
  destruct Hin as [<-|[]].
  assert (Hr : resume_field (request_body (trim (ui_resume st))
                               (trim (ui_jobDescription st)))
               = Normal (VStr (trim (ui_resume st)))) by reflexivity.
  assert (Hj : jobDescription_field
                 (request_body (trim (ui_resume st))
                    (trim (ui_jobDescription st)))
               = Normal (VStr (trim (ui_jobDescription st)))) by reflexivity.
  rewrite (handler_valid _ _ _ Hr Hj) by (rewrite trim_idem; assumption).
  rewrite !trim_idem. reflexivity.
Qed.

Lemma posted_request_passes_server_validation_witness :
  remote_calls
    (handler (request_body (trim (nl ++ resume60)) (trim (jd42 ++ nl))))
  = [create_request (substring 0 6000 (trim (nl ++ resume60)))
                    (substring 0 3000 (trim (jd42 ++ nl)))].
Proof.
  apply (posted_request_passes_server_validation
           (UiState (nl ++ resume60) (jd42 ++ nl) false VNull VNull)).
  vm_compute. left. reflexivity.
Defined.

(** X19.  [handleAnalyze] consults the network only through the bodies it
    posts: with texts that fail the check nothing is posted and the
    outcome does not depend on the network at all; otherwise it depends on
    the answer to the one posted body alone. *)
Theorem handleAnalyze_posts_at_most_once
    (st : ui_state) (post1 post2 : value -> promise) :
  (forall b, In b (posted st) -> post1 b = post2 b) ->
  handleAnalyze post1 st = handleAnalyze post2 st
  /\ (List.length (posted st) <= 1)%nat.
Proof.
  intros H. unfold handleAnalyze, posted in *.
  destruct (client_too_short (ui_resume st) 50); [split; [reflexivity|simpl; lia]|].
  destruct (client_too_short (ui_jobDescription st) 30);
    [split; [reflexivity|simpl; lia]|].
  split; [|simpl; lia].
  unfold request_and_show, analyzeResume, apiClient_post. cbn [ui_resume ui_jobDescription setResult setError setLoading].
  rewrite (H _ (or_introl eq_refl)). reflexivity.
Qed.

Lemma handleAnalyze_posts_at_most_once_witness :
  handleAnalyze (fun _ => Resolved VNull)
    (UiState resume10 jd42 false VNull VNull)
  = handleAnalyze (fun _ => Rejected [])
      (UiState resume10 jd42 false VNull VNull).
Proof.
  apply (handleAnalyze_posts_at_most_once
           (UiState resume10 jd42 false VNull VNull)
           (fun _ => Resolved VNull) (fun _ => Rejected [])).
  intros b Hin. vm_compute in Hin. contradiction.
Defined.

(** X20.  Once a request was posted, the spinner is off at the end
    whatever happened, the texts are untouched, and a result and an error
    are never shown together. *)
Theorem after_request_spinner_off
    (post : value -> promise) (st : ui_state) :
  posted st <> [] ->
  let st' := handleAnalyze post st in
  ui_loading st' = false
  /\ ui_resume st' = ui_resume st
  /\ ui_jobDescription st' = ui_jobDescription st
  /\ truthy (ui_result st') && truthy (ui_error st') = false.
Proof.
  intros Hp. cbv zeta. unfold handleAnalyze, posted in *.
  destruct (client_too_short (ui_resume st) 50); [contradiction|].
  destruct (client_too_short (ui_jobDescription st) 30); [contradiction|].
  unfold request_and_show.
  destruct (analyzeResume post _ _) as [data|err].
  - destruct (get_field data "data") as [d|e]; cbn;
      repeat split; try reflexivity. apply andb_false_r.
  - cbn. repeat split; reflexivity.
Qed.

Lemma after_request_spinner_off_witness :
  ui_loading
    (handleAnalyze (fun _ => Rejected [])
       (UiState resume60 jd42 true VNull VNull)) = false.
Proof.
  apply (after_request_spinner_off (fun _ => Rejected [])
           (UiState resume60 jd42 true VNull VNull)).
  vm_compute. discriminate.
Defined.

Lemma failure_body_error (env : environment) (req_body : value)
    (remote : chat_request -> completion value) :
  success_variant (body (endpoint env req_body remote)) = false ->
  exists m, m <> []
    /\ field "error" (body (endpoint env req_body remote)) = VStr m.
Proof.
  destruct (endpoint_cases env req_body remote)
    as [(e & H & _)|[H|[H|[H|(req & c & raw & v & _ & _ & _ & Hp & H)]]]];
    rewrite H; intros Hs.
  - destruct (error_handler_body env e) as (m & Hne & Hf & _).
    exists m. auto.
  - eexists. split; [|reflexivity]. discriminate.
  - eexists. split; [|reflexivity]. discriminate.
  - eexists. split; [|reflexivity]. discriminate.
  - cbn [body] in Hs. destruct (success_body_variants v) as [E _].
    rewrite E, (parse_defined _ _ Hp) in Hs. discriminate.
Qed.

Lemma success_body_data (env : environment) (req_body : value)
    (remote : chat_request -> completion value) :
  success_variant (body (endpoint env req_body remote)) = true ->
  get_field (body (endpoint env req_body remote)) "data"
  = Normal (field "data" (body (endpoint env req_body remote))).
Proof.
  destruct (body (endpoint env req_body remote)); try discriminate.
  reflexivity.
Qed.

(** X21.  The error of the server reaches the user word for word: when
    the posted request is rejected with the failure body of the endpoint
    as response data, the page ends with that error string shown, no
    result and the spinner off. *)
Theorem server_error_is_shown
    (env : environment) (remote : chat_request -> completion value)
    (post : value -> promise) (st : ui_state)
    (req_body : value) (err : list (t * value)) :
  In req_body (posted st) ->
  post req_body = Rejected err ->
  opt_field (lookup (lit "response") err) "data"
  = body (endpoint env req_body remote) ->
  success_variant (body (endpoint env req_body remote)) = false ->
  let st' := handleAnalyze post st in
  ui_error st' = field "error" (body (endpoint env req_body remote))
  /\ truthy (ui_error st') = true
  /\ ui_result st' = VNull
  /\ ui_loading st' = false.
Proof.
  intros Hin Hpost Hdata Hfail. cbv zeta.
  destruct (failure_body_error env req_body remote Hfail) as (m & Hne & Hm).
  destruct (posted_cases st) as [[E _]|(E & C1 & C2 & _)];
    rewrite E in Hin; [contradiction|].
  destruct Hin as [<-|[]].
  unfold handleAnalyze. rewrite C1, C2.
  unfold request_and_show, analyzeResume, apiClient_post.
  cbn [ui_resume ui_jobDescription setResult setError setLoading].
  rewrite Hpost. cbn [ui_error ui_result ui_loading setError setLoading].
  unfold on_rejected. rewrite lookup_obj_put_same.
  assert (En : normalized_message err = VStr m).
  { unfold normalized_message. rewrite Hdata, opt_field_field, Hm.
    destruct m; [contradiction | reflexivity]. }
  unfold or_else at 1. rewrite normalized_message_truthy.
  rewrite Hm, En. repeat split; try reflexivity.
  destruct m; [contradiction | reflexivity].
Qed.

Lemma server_error_is_shown_witness :
  ui_error
    (handleAnalyze
       (fun b => Rejected
          [(lit "message", VStr (lit "Request failed with status code 500"));
           (lit "response",
            VObj [(lit "data",
                   body (endpoint (Env None) b
                           (fun _ => Normal (reply prose))))])])
       (UiState resume60 jd42 false VNull VNull))
  = VStr (lit "AI returned unexpected format. Please try again.").
Proof.
  refine (proj1 (server_error_is_shown (Env None)
           (fun _ => Normal (reply prose))
           (fun b => Rejected
              [(lit "message",
                VStr (lit "Request failed with status code 500"));
               (lit "response",
                VObj [(lit "data",
                       body (endpoint (Env None) b
                               (fun _ => Normal (reply prose))))])])
           (UiState resume60 jd42 false VNull VNull)
           (request_body (trim resume60) (trim jd42)) _ _ _ _ _)).
  - vm_compute. left. reflexivity.
  - reflexivity.
  - reflexivity.
  - vm_compute. reflexivity.
Defined.

(** X22.  The result of the server reaches the page unwrapped: when the
    posted request resolves with the success body of the endpoint as
    response data, the page ends with the value under [data] as its
    result, no error and the spinner off. *)
Theorem server_result_is_shown
    (env : environment) (remote : chat_request -> completion value)
    (post : value -> promise) (st : ui_state)
    (req_body response : value) :
  In req_body (posted st) ->
  post req_body = Resolved response ->
  get_field response "data" = Normal (body (endpoint env req_body remote)) ->
  success_variant (body (endpoint env req_body remote)) = true ->
  let st' := handleAnalyze post st in
  ui_result st' = field "data" (body (endpoint env req_body remote))
  /\ ui_error st' = VNull
  /\ ui_loading st' = false.
Proof.
  intros Hin Hpost Hdata Hok. cbv zeta.
  destruct (posted_cases st) as [[E _]|(E & C1 & C2 & _)];
    rewrite E in Hin; [contradiction|].
  destruct Hin as [<-|[]].
  unfold handleAnalyze. rewrite C1, C2.
  unfold request_and_show, analyzeResume, apiClient_post.
  cbn [ui_resume ui_jobDescription setResult setError setLoading].
  rewrite Hpost, Hdata, (success_body_data env _ remote Hok).
  repeat split; reflexivity.
Qed.

Lemma server_result_is_shown_witness :
  ui_result
    (handleAnalyze
       (fun b => Resolved
          (VObj [(lit "data",
                  body (endpoint (Env None) b
                          (fun _ => Normal (reply fenced_A))))]))
       (UiState resume60 jd42 false VNull VNull))
  = value_A.
Proof.
  refine (proj1 (server_result_is_shown (Env None)
           (fun _ => Normal (reply fenced_A))
           (fun b => Resolved
              (VObj [(lit "data",
                      body (endpoint (Env None) b
                              (fun _ => Normal (reply fenced_A))))]))
           (UiState resume60 jd42 false VNull VNull)
           (request_body (trim resume60) (trim jd42))
           (VObj [(lit "data",
                   body (endpoint (Env None)
                           (request_body (trim resume60) (trim jd42))
                           (fun _ => Normal (reply fenced_A))))]) _ _ _ _)).
  - vm_compute. left. reflexivity.
  - reflexivity.
  - reflexivity.
  - vm_compute. reflexivity.
Defined.

Lemma table_lookup_none (key : t) (table : list (string * rating_style)) :
  (forall k, In k (List.map fst table) -> key <> lit k) ->
  table_lookup key table = None.
Proof.
  induction table as [|[k v] rest IH]; intros H; [reflexivity|]. simpl.
  destruct (eqb key (lit k)) eqn:E.
  - apply eqb_eq in E. exfalso. apply (H k); [left; reflexivity | exact E].
  - apply IH. intros k' Hin. apply H. right. exact Hin.
Qed.

(** X23.  [getRatingStyle] never hands back [undefined]; a rating that is
    none of the five of the table, and not the name of a member of
    [Object.prototype], is styled as Average. *)
Theorem unknown_rating_is_styled_as_average (key : t) :
  getRatingStyle key <> None
  /\ ((forall r, In r Contract.ratings -> key <> lit r) ->
      (forall n, In n object_prototype_names -> key <> lit n) ->
      getRatingStyle key
      = Some (Style "rgba(255,209,102,0.1)" "#ffd166" "rgba(255,209,102,0.25)")).
Proof.
  split.
  - unfold getRatingStyle. destruct (map_get key); [discriminate|].
    vm_compute. discriminate.
  - intros Hr Hn. unfold getRatingStyle, map_get.
    rewrite (table_lookup_none key rating_table) by exact Hr.
    assert (E : existsb (fun n => eqb key (lit n)) object_prototype_names
                = false).
    { apply not_true_is_false. intros Hex.
      apply existsb_exists in Hex as (n & Hin & He).
      apply eqb_eq in He. exact (Hn n Hin He). }
    rewrite E. reflexivity.
Qed.

(** X24.  Each of the five ratings that the system prompt allows has an
    entry of its own in the table of [getRatingStyle], and no two of them
    share a style. *)
Theorem contract_ratings_have_distinct_styles (r1 r2 : string) :
  In r1 Contract.ratings -> In r2 Contract.ratings ->
  (exists bg color border, getRatingStyle (lit r1) = Some (Style bg color border))
  /\ (getRatingStyle (lit r1) = getRatingStyle (lit r2) -> r1 = r2).
Proof.
  intros H1 H2. split.
  - simpl in H1. repeat (destruct H1 as [<-|H1]; [do 3 eexists; reflexivity|]).
    contradiction.
  - simpl in H1, H2.
    repeat (destruct H1 as [<-|H1];
            [repeat (destruct H2 as [<-|H2];
                     [vm_compute; intros E; first [reflexivity | discriminate E]|]);
             contradiction|]).
    contradiction.
Qed.

Lemma contract_ratings_have_distinct_styles_witness :
  exists bg color border,
    getRatingStyle (lit "Good") = Some (Style bg color border).
Proof.
  refine (proj1 (contract_ratings_have_distinct_styles "Good" "Poor" _ _)).
  - simpl. tauto.
  - simpl. tauto.
Defined.
